(** * GEO Analyzer: the scoring engine of [geo_analyzer_app.py]

    A shallow embedding of the analysis performed by the script once a page
    has been fetched and parsed: the feature tests over the parsed document
    and its plain text, the three sub-scores with the list of issues, the
    weighted final score, and the grade and priority derived from it.

    Python values are modelled as follows.
    - [int] is [Z]; [float] is IEEE 754 binary64, as [spec_float] with the
      operations of the Standard Library at precision 53;
    - [str] is [string], restricted to ASCII text;
    - the [list] of issues is a [list], the [set] literal [grades] is a
      [gset], and the [attrs] dictionary of a tag is a [gmap];
    - the statements of the scoring block, which update three counters and
      append to one list, are state transformers composed in sequence. *)

From Stdlib Require Import ZArith QArith Lqa String Ascii List Lia Bool.
From Stdlib Require Import Floats.SpecFloat.
From stdpp Require Import base gmap strings list.
Import ListNotations.

Open Scope string_scope.
Open Scope Z_scope.

(** ** Python floats *)

Module PyFloat.

Definition prec : Z := 53.
Definition emax : Z := 1024.

(** [float(n)] for an integer [n]: the nearest binary64 number. *)
Definition float_of_int (n : Z) : spec_float :=
  binary_normalize prec emax n 0 false.

Definition mul : spec_float -> spec_float -> spec_float := SFmul prec emax.
Definition add : spec_float -> spec_float -> spec_float := SFadd prec emax.
Definition div : spec_float -> spec_float -> spec_float := SFdiv prec emax.

(** The float denoted by the decimal [m * 10^-k]: a literal such as [0.35]
    in the source text, or the digit string that [round] converts back to
    a float. Both are the correctly rounded value of the quotient. *)
Definition float_of_decimal (m : Z) (k : Z) : spec_float :=
  div (float_of_int m) (float_of_int (10 ^ k)).

(** [int * float]: the integer is converted first. *)
Definition int_mul (n : Z) (x : spec_float) : spec_float :=
  mul (float_of_int n) x.

Definition is_finite (x : spec_float) : bool :=
  match x with
  | S754_zero _ | S754_finite _ _ _ => true
  | _ => false
  end.

(** The rational number a finite float stands for. *)
Definition value (x : spec_float) : Q :=
  match x with
  | S754_finite s m e =>
      if 0 <=? e then inject_Z (cond_Zopp s (Zpos m * 2 ^ e))
      else Qmake (cond_Zopp s (Zpos m)) (2 ^ Z.to_pos (- e))
  | _ => 0%Q
  end.

(** Comparison of a float with an integer is exact in Python: the two
    numbers are compared as reals, and every comparison with NaN fails. *)
Definition compare_int (x : spec_float) (n : Z) : option comparison :=
  match x with
  | S754_nan => None
  | S754_infinity s => Some (if s then Lt else Gt)
  | _ => Some (value x ?= inject_Z n)%Q
  end.

Definition ge_int (x : spec_float) (n : Z) : bool :=
  match compare_int x n with
  | Some Gt | Some Eq => true
  | _ => false
  end.

Definition lt_int (x : spec_float) (n : Z) : bool :=
  match compare_int x n with
  | Some Lt => true
  | _ => false
  end.

Definition eq_int (x : spec_float) (n : Z) : bool :=
  match compare_int x n with
  | Some Eq => true
  | _ => false
  end.

(** [n / d] rounded to the nearest integer, a tie going to the even one
    ([d] positive). *)
Definition round_half_even_div (n d : Z) : Z :=
  let q := n / d in
  let r := n mod d in
  match 2 * r ?= d with
  | Lt => q
  | Gt => q + 1
  | Eq => if Z.even q then q else q + 1
  end.

(** The number of tenths nearest to the exact value of [x]. *)
Definition tenths (x : spec_float) : Z :=
  match x with
  | S754_finite s m e =>
      cond_Zopp s
        (if 0 <=? e then Zpos m * 2 ^ e * 10
         else round_half_even_div (Zpos m * 10) (2 ^ (- e)))
  | _ => 0
  end.

(** [round(x, 1)]: the exact binary value of [x] is rounded to one decimal
    place, ties to even, and the resulting decimal is read back as a
    float; a result of zero tenths keeps the sign of [x]. Zeros, infinities
    and NaN are returned unchanged. *)
Definition round1 (x : spec_float) : spec_float :=
  match x with
  | S754_finite s _ _ =>
      if tenths x =? 0 then S754_zero s else float_of_decimal (tenths x) 1
  | _ => x
  end.

End PyFloat.

(** ** Python strings (ASCII) *)

Module PyStr.

Definition chars (s : string) : list ascii := list_ascii_of_string s.

(** [s.startswith(p)] *)
Definition startswith (s p : string) : bool := String.prefix p s.

Definition lower_char (c : ascii) : ascii :=
  let n := nat_of_ascii c in
  if ((65 <=? n) && (n <=? 90))%nat then ascii_of_nat (n + 32) else c.

(** [s.lower()] *)
Fixpoint lower (s : string) : string :=
  match s with
  | EmptyString => EmptyString
  | String c t => String (lower_char c) (lower t)
  end.

(** [sub in s] *)
Fixpoint contains (sub s : string) : bool :=
  String.prefix sub s ||
  match s with
  | EmptyString => false
  | String _ t => contains sub t
  end.

(** [c.isspace()] on ASCII: tab to carriage return, the four separators
    FS, GS, RS and US, and the space. *)
Definition isspace (c : ascii) : bool :=
  let n := nat_of_ascii c in
  (((9 <=? n) && (n <=? 13)) || ((28 <=? n) && (n <=? 32)))%nat.

(** [s.split()]: the maximal runs of characters that are not whitespace.
    [w] is the word being read, in reverse. *)
Fixpoint split_aux (w : list ascii) (s : list ascii) : list string :=
  match s with
  | [] => match w with [] => [] | _ => [string_of_list_ascii (rev w)] end
  | c :: t =>
      if isspace c then
        match w with
        | [] => split_aux [] t
        | _ => string_of_list_ascii (rev w) :: split_aux [] t
        end
      else split_aux (c :: w) t
  end.

Definition split (s : string) : list string := split_aux [] (chars s).

(** [len(l)] *)
Definition len {A} (l : list A) : Z := Z.of_nat (length l).

End PyStr.

(** ** Regular expressions: the fragment of [re] the script uses *)

Module Re.

Inductive regex : Type :=
| Chr (c : ascii)               (* a literal character *)
| Digit                         (* \d *)
| Range (lo hi : ascii)         (* [lo-hi] *)
| Cat (r1 r2 : regex)           (* r1 r2 *)
| Alt (r1 r2 : regex)           (* r1|r2 *)
| Times (n : nat) (r : regex)   (* r{n} *)
| Caret                         (* ^ *)
| Dollar                        (* $ *)
| Eps.                          (* the empty pattern *)

(** A position in the subject: whether it is the start of the string, and
    what is left to read. *)
Definition position : Type := bool * list ascii.

Definition is_digit (c : ascii) : bool :=
  let n := nat_of_ascii c in ((48 <=? n) && (n <=? 57))%nat.

Definition in_range (lo hi c : ascii) : bool :=
  ((nat_of_ascii lo <=? nat_of_ascii c) &&
   (nat_of_ascii c <=? nat_of_ascii hi))%nat.

(** One character accepted by [ok] is consumed. *)
Definition step (ok : ascii -> bool) (p : position) : list position :=
  match snd p with
  | c :: t => if ok c then [(false, t)] else []
  | [] => []
  end.

Definition same_char (ignorecase : bool) (c d : ascii) : bool :=
  if ignorecase
  then Ascii.eqb (PyStr.lower_char c) (PyStr.lower_char d)
  else Ascii.eqb c d.

(** All the positions at which a match of [r] started at [p] can end, in
    the order in which a backtracking matcher tries them. [ignorecase] is
    the flag [re.I]. [$] holds at the end of the string and before a final
    newline. *)
Fixpoint ends (ignorecase : bool) (r : regex) (p : position)
    : list position :=
  match r with
  | Chr c => step (same_char ignorecase c) p
  | Digit => step is_digit p
  | Range lo hi => step (in_range lo hi) p
  | Cat r1 r2 => flat_map (ends ignorecase r2) (ends ignorecase r1 p)
  | Alt r1 r2 => ends ignorecase r1 p ++ ends ignorecase r2 p
  | Times n r1 => Nat.iter n (flat_map (ends ignorecase r1)) [p]
  | Caret => if fst p then [p] else []
  | Dollar =>
      match snd p with
      | [] => [p]
      | [c] => if Ascii.eqb c "010" then [p] else []
      | _ => []
      end
  | Eps => [p]
  end.

Definition matches_at (ignorecase : bool) (r : regex) (p : position)
    : bool :=
  match ends ignorecase r p with [] => false | _ => true end.

(** Is there a match starting at some position of [s] after the first?
    ([s] itself is tried by the caller, as the start of the string.) *)
Fixpoint search_from (ignorecase : bool) (r : regex) (s : list ascii)
    : bool :=
  match s with
  | [] => false
  | _ :: t =>
      matches_at ignorecase r (false, t) || search_from ignorecase r t
  end.

(** [re.search(r, s)] (or [re.compile(r).search(s)]) finds a match. *)
Definition search (ignorecase : bool) (r : regex) (s : string) : bool :=
  matches_at ignorecase r (true, PyStr.chars s) ||
  search_from ignorecase r (PyStr.chars s).

(** The pattern of a literal word. *)
Fixpoint word (w : list ascii) : regex :=
  match w with
  | [] => Eps
  | [c] => Chr c
  | c :: t => Cat (Chr c) (word t)
  end.

Definition lit (w : string) : regex := word (PyStr.chars w).

End Re.

(** ** [urllib.parse]: the network location of a URL *)

Module Url.

(** Leading C0 control characters and spaces are dropped. *)
Fixpoint lstrip (s : string) : string :=
  match s with
  | String c t => if (nat_of_ascii c <=? 32)%nat then lstrip t else s
  | EmptyString => s
  end.

(** Tabs, carriage returns and newlines are removed everywhere. *)
Fixpoint remove_unsafe (s : string) : string :=
  match s with
  | String c t =>
      let n := nat_of_ascii c in
      if ((n =? 9) || (n =? 10) || (n =? 13))%nat then remove_unsafe t
      else String c (remove_unsafe t)
  | EmptyString => s
  end.

Definition is_alpha (c : ascii) : bool :=
  let n := nat_of_ascii c in
  (((65 <=? n) && (n <=? 90)) || ((97 <=? n) && (n <=? 122)))%nat.

(** Letters, digits, and [+], [-], [.] *)
Definition scheme_char (c : ascii) : bool :=
  let n := nat_of_ascii c in
  (is_alpha c || ((48 <=? n) && (n <=? 57)) ||
   (n =? 43) || (n =? 45) || (n =? 46))%nat.

(** [url.find(':')]: the text before the first colon and the text after
    it, when there is a colon. *)
Fixpoint cut_colon (s : string) : option (string * string) :=
  match s with
  | EmptyString => None
  | String c t =>
      if Ascii.eqb c ":" then Some (EmptyString, t)
      else match cut_colon t with
           | Some (a, b) => Some (String c a, b)
           | None => None
           end
  end.

(** The URL without its scheme, when it has one: a non-empty run of scheme
    characters that starts with a letter and is followed by a colon. *)
Definition strip_scheme (url : string) : string :=
  match cut_colon url with
  | Some (String c pre, rest) =>
      if is_alpha c && forallb scheme_char (PyStr.chars (String c pre))
      then rest else url
  | _ => url
  end.

(** [_splitnetloc]: up to the first of [/], [?], [#]. *)
Fixpoint until_delim (s : string) : string :=
  match s with
  | EmptyString => EmptyString
  | String c t =>
      if Ascii.eqb c "/" || Ascii.eqb c "?" || Ascii.eqb c "#"
      then EmptyString else String c (until_delim t)
  end.

(** [urlparse(url).netloc]: what follows [//] after the optional scheme;
    empty when the rest of the URL does not start with [//]. The
    [ValueError] that [urlsplit] raises for a malformed bracketed (IPv6)
    host is outside this model. *)
Definition netloc (url : string) : string :=
  match strip_scheme (remove_unsafe (lstrip url)) with
  | String "/" (String "/" rest) => until_delim rest
  | _ => EmptyString
  end.

End Url.

(** ** The parsed document ([bs4]) *)

Module Soup.

(** A page element: a string of text, or a tag with its name, its [attrs]
    dictionary and its contents. *)
#[warnings="-register-all"]
Inductive node : Type :=
| NavigableString (s : string)
| Tag (name : string) (attrs : gmap string string) (contents : list node).

(** The [BeautifulSoup] object, given by its contents. *)
Definition soup : Type := list node.

(** [.descendants]: every element below, in document order. *)
Fixpoint descendants (n : node) : list node :=
  match n with
  | NavigableString _ => []
  | Tag _ _ cs => flat_map (fun c => c :: descendants c) cs
  end.

Definition soup_descendants (doc : soup) : list node :=
  flat_map (fun c => c :: descendants c) doc.

Definition strings (ns : list node) : list string :=
  flat_map (fun n => match n with NavigableString s => [s] | _ => [] end) ns.

(** [soup.get_text()]: the strings of the document, joined. *)
Definition get_text (doc : soup) : string :=
  String.concat EmptyString (strings (soup_descendants doc)).

(** [tag.text] *)
Definition text (n : node) : string :=
  match n with
  | NavigableString s => s
  | Tag _ _ _ => String.concat EmptyString (strings (descendants n))
  end.

(** [tag[key]], for a key the tag has. *)
Definition get_attr (key : string) (n : node) : string :=
  match n with
  | Tag _ a _ => default EmptyString (a !! key)
  | NavigableString _ => EmptyString
  end.

(** [soup.find_all(...)]: the tags whose name passes [name_ok] and whose
    attributes pass [attrs_ok], in document order. *)
Definition find_all (doc : soup) (name_ok : string -> bool)
    (attrs_ok : gmap string string -> bool) : list node :=
  List.filter
    (fun n => match n with
              | Tag nm a _ => name_ok nm && attrs_ok a
              | NavigableString _ => false
              end)
    (soup_descendants doc).

(** [soup.find(...)]: the first such tag, or [None]. *)
Definition find (doc : soup) (name_ok : string -> bool)
    (attrs_ok : gmap string string -> bool) : option node :=
  head (find_all doc name_ok attrs_ok).

(** Filters on the name: a string, a list of strings, a compiled pattern,
    or none. *)
Definition named (nm : string) : string -> bool := String.eqb nm.
Definition named_in (nms : list string) : string -> bool :=
  fun nm => existsb (String.eqb nm) nms.
Definition named_like (r : Re.regex) : string -> bool := Re.search false r.
Definition any_name : string -> bool := fun _ => true.

(** Filters on the attributes: [key=value], [key=True], [key=pattern], or
    none. *)
Definition attr_is (key value : string) : gmap string string -> bool :=
  fun a => match a !! key with Some v => String.eqb v value | None => false end.
Definition attr_present (key : string) : gmap string string -> bool :=
  fun a => match a !! key with Some _ => true | None => false end.
Definition attr_like (key : string) (ignorecase : bool) (r : Re.regex)
    : gmap string string -> bool :=
  fun a => match a !! key with
           | Some v => Re.search ignorecase r v
           | None => false
           end.
Definition any_attrs : gmap string string -> bool := fun _ => true.

(** Truth value of the result of [find] (a tag is true, [None] is false)
    and of [find_all] (a list is true when it is not empty). *)
Definition found (r : option node) : bool :=
  match r with Some _ => true | None => false end.
Definition nonempty (r : list node) : bool :=
  match r with [] => false | _ => true end.

End Soup.

(** ** Grade and priority (lines 87-89) *)

Module Classifier.
Import PyFloat.

(** [grades = {(94,"A+"), (87,"A"), ...}] is a set literal. *)
Definition grades : gset (Z * string) :=
  {[ (94, "A+"); (87, "A"); (80, "A-"); (77, "B+"); (73, "B");
     (70, "B-"); (67, "C+"); (63, "C"); (60, "C-") ]}.

(** The thresholds in the order in which the literal lists them. *)
Definition grades_as_written : list (Z * string) :=
  [ (94, "A+"); (87, "A"); (80, "A-"); (77, "B+"); (73, "B");
    (70, "B-"); (67, "C+"); (63, "C"); (60, "C-") ].

(** Iterating over a set yields each of its elements once, in an order
    the language leaves open: for a set of tuples holding strings it
    follows the string hashes, which are salted per process. An iteration
    is therefore any duplicate-free enumeration of the set. *)
Definition set_iteration {A} `{Countable A}
    (it : list A) (s : gset A) : Prop :=
  NoDup it ∧ list_to_set it = s.

(** [grade = next((g for s,g in grades if final_score >= s), "F")], where
    [it] is the order in which the set is iterated. *)
Definition grade (it : list (Z * string)) (final_score : spec_float)
    : string :=
  default "F"
    (head (map snd (List.filter (fun sg => ge_int final_score (fst sg)) it))).

(** [priority = "URGENT" if final_score < 60 else "HIGH" if ... else "LOW"] *)
Definition priority (final_score : spec_float) : string :=
  if lt_int final_score 60 then "URGENT"
  else if lt_int final_score 75 then "HIGH"
  else if lt_int final_score 85 then "MEDIUM"
  else "LOW".

Definition classify (it : list (Z * string)) (final_score : spec_float)
    : string * string :=
  (grade it final_score, priority final_score).

End Classifier.


(** ** The analysis (lines 36-37 and 50-89) *)

Module GeoAnalyzer.
Import PyFloat PyStr Soup Classifier.

(** [if not url.startswith("http"): url = "https://" + url] *)
Definition normalize_url (url : string) : string :=
  if startswith url "http" then url else "https://" ++ url.

(** The value of every test of the scoring block on one page; for the
    links, the number [external] that the test compares with 8. *)
Record SignalSet : Type := {
  hasStructuredData : bool;
  hasSemanticSectioning : bool;
  hasGoodHeadingStructure : bool;
  hasRecentDateMention : bool;
  hasReasonableParagraphLength : bool;
  hasTabularOrDefinitionContent : bool;
  hasListContent : bool;
  mentionsFaq : bool;
  mentionsAuthorCredential : bool;
  externalLinkCount : Z;
  hasTrustBadgeImage : bool
}.

(** [re.compile("^h[1-6]$")] *)
Definition heading_pattern : Re.regex :=
  Re.Cat Re.Caret (Re.Cat (Re.Chr "h") (Re.Cat (Re.Range "1" "6") Re.Dollar)).

(** [r'\d{4}-\d{2}-\d{2}|202[4-9]'] *)
Definition date_pattern : Re.regex :=
  Re.Alt
    (Re.Cat (Re.Times 4 Re.Digit)
       (Re.Cat (Re.Chr "-")
          (Re.Cat (Re.Times 2 Re.Digit)
             (Re.Cat (Re.Chr "-") (Re.Times 2 Re.Digit)))))
    (Re.Cat (Re.lit "202") (Re.Range "4" "9")).

(** [re.compile("badge|cert|trust", re.I)] *)
Definition badge_pattern : Re.regex :=
  Re.Alt (Re.lit "badge") (Re.Alt (Re.lit "cert") (Re.lit "trust")).

(** [external = len([a for a in soup.find_all("a", href=True)
      if urlparse(a["href"]).netloc != urlparse(url).netloc])] *)
Definition external (url : string) (doc : soup) : Z :=
  len (List.filter
         (fun a => negb (String.eqb (Url.netloc (get_attr "href" a))
                                    (Url.netloc url)))
         (find_all doc (named "a") (attr_present "href"))).

(** The conditions of lines 57-81, in order. *)
Definition extractSignals (url : string) (doc : soup) : SignalSet :=
  let text := get_text doc in
  {| hasStructuredData :=
       found (find doc (named "script") (attr_is "type" "application/ld+json"));
     hasSemanticSectioning :=
       existsb (fun t => found (find doc (named t) any_attrs))
               ["article"; "section"; "main"];
     hasGoodHeadingStructure :=
       found (find doc (named "h1") any_attrs) &&
       (3 <? len (find_all doc (named_like heading_pattern) any_attrs));
     hasRecentDateMention := Re.search false date_pattern text;
     hasReasonableParagraphLength :=
       len (List.filter (fun p => 80 <? len (split (Soup.text p)))
                        (find_all doc (named "p") any_attrs)) <? 3;
     hasTabularOrDefinitionContent :=
       nonempty (find_all doc (named_in ["table"; "dl"]) any_attrs);
     hasListContent :=
       nonempty (find_all doc (named_in ["ul"; "ol"]) any_attrs);
     mentionsFaq := contains "faq" (lower text);
     mentionsAuthorCredential :=
       existsb (fun x => contains x (lower text))
               ["by "; "author"; "phd"; "engineer"];
     externalLinkCount := external url doc;
     hasTrustBadgeImage :=
       found (find doc any_name (attr_like "src" true badge_pattern)) |}.

(** The variables the scoring block updates. *)
Record state : Type := {
  tech_score : Z;
  structure_score : Z;
  authority_score : Z;
  issues : list (string * string)
}.

(** Lines 51-54. *)
Definition initial : state :=
  {| tech_score := 0; structure_score := 0; authority_score := 0;
     issues := [] |}.

(** A statement transforms the state. *)
Definition stmt : Type := state -> state.

Definition skip : stmt := fun st => st.

Definition seq (c1 c2 : stmt) : stmt := fun st => c2 (c1 st).

Declare Scope stmt_scope.
Delimit Scope stmt_scope with stmt.
Bind Scope stmt_scope with stmt.
Notation "c1 ;; c2" := (seq c1 c2)
  (at level 100, c2 at level 200, right associativity) : stmt_scope.

(** [tech_score += n] *)
Definition tech_add (n : Z) : stmt := fun st =>
  {| tech_score := tech_score st + n;
     structure_score := structure_score st;
     authority_score := authority_score st;
     issues := issues st |}.

(** [structure_score += n] *)
Definition structure_add (n : Z) : stmt := fun st =>
  {| tech_score := tech_score st;
     structure_score := structure_score st + n;
     authority_score := authority_score st;
     issues := issues st |}.

(** [authority_score += n] *)
Definition authority_add (n : Z) : stmt := fun st =>
  {| tech_score := tech_score st;
     structure_score := structure_score st;
     authority_score := authority_score st + n;
     issues := issues st |}.

(** [issues.append((text, effort))] *)
Definition issues_append (text effort : string) : stmt := fun st =>
  {| tech_score := tech_score st;
     structure_score := structure_score st;
     authority_score := authority_score st;
     issues := issues st ++ [(text, effort)] |}.

(** Lines 56-81, with each condition read from the signal set. *)
Definition scoring (sg : SignalSet) : stmt :=
 (
  (* Technical *)
  (if hasStructuredData sg then tech_add 35
   else issues_append "No JSON-LD structured data" "Quick") ;;
  (if hasSemanticSectioning sg then tech_add 20
   else issues_append "Limited semantic HTML" "Moderate") ;;
  (if hasGoodHeadingStructure sg then tech_add 20
   else issues_append "Fix heading hierarchy" "Moderate") ;;
  (if hasRecentDateMention sg then tech_add 15
   else issues_append "Add publish/update date" "Quick") ;;
  (if hasReasonableParagraphLength sg then tech_add 10 else skip) ;;
  (* Structure *)
  (if hasTabularOrDefinitionContent sg then structure_add 40
   else issues_append "Add spec/comparison tables" "Moderate") ;;
  (if hasListContent sg then structure_add 25
   else issues_append "Use bullet/numbered lists" "Quick") ;;
  (if mentionsFaq sg then structure_add 35
   else issues_append "Add FAQ section" "Moderate") ;;
  (* Authority *)
  (if mentionsAuthorCredential sg then authority_add 40
   else issues_append "Add author byline + credentials" "Quick") ;;
  (if 8 <? externalLinkCount sg then authority_add 35
   else issues_append "Link to reputable sources" "Moderate") ;;
  (if hasTrustBadgeImage sg then authority_add 25 else skip)
 )%stmt.

(** [final_score = round(tech_score*0.4 + structure_score*0.35 +
      authority_score*0.25, 1)] *)
Definition final_score (st : state) : spec_float :=
  round1
    (add (add (int_mul (tech_score st) (float_of_decimal 4 1))
              (int_mul (structure_score st) (float_of_decimal 35 2)))
         (int_mul (authority_score st) (float_of_decimal 25 2))).

(** What the script has computed when it starts to display: the scores and
    issues, the final score, the grade and the priority. [it] is the order
    in which this run iterates over [grades]. *)
Record report : Type := {
  scores : state;
  final : spec_float;
  the_grade : string;
  the_priority : string
}.

Definition score (it : list (Z * string)) (sg : SignalSet) : report :=
  let st := scoring sg initial in
  let fs := final_score st in
  {| scores := st; final := fs;
     the_grade := grade it fs; the_priority := priority fs |}.

(** The whole analysis of the page [doc] fetched for the URL typed in. *)
Definition analyze (it : list (Z * string)) (url : string) (doc : soup)
    : report :=
  score it (extractSignals (normalize_url url) doc).

(** Lines 106-108: the first ten issues are displayed, each with
    [effort_icon]. *)
Definition effort_icon (effort : string) : string :=
  if String.eqb effort "Quick" then "Quick"
  else if String.eqb effort "Moderate" then "Moderate"
  else "Major".

Definition displayed_issues (st : state) : list (string * string) :=
  map (fun ie => (fst ie, effort_icon (snd ie))) (firstn 10 (issues st)).

(** Lines 121-122: the PDF lists every issue with its effort. *)
Definition pdf_issues (st : state) : list (string * string) :=
  map (fun ie => (fst ie, snd ie)) (issues st).

(** The [BeautifulSoup] object of the empty markup: a document without
    contents. *)
Definition empty_soup : soup := [].

(** The signals of a page on which every test succeeds. *)
Definition every_signal : SignalSet :=
  {| hasStructuredData := true;
     hasSemanticSectioning := true;
     hasGoodHeadingStructure := true;
     hasRecentDateMention := true;
     hasReasonableParagraphLength := true;
     hasTabularOrDefinitionContent := true;
     hasListContent := true;
     mentionsFaq := true;
     mentionsAuthorCredential := true;
     externalLinkCount := 9;
     hasTrustBadgeImage := true |}.

(** A page made of nine links [<a href="/about">About</a>] to a path on the
    site itself. *)
Definition relative_link : node :=
  Tag "a" {[ "href" := "/about" ]} [NavigableString "About"].

Definition nine_relative_links : soup := repeat relative_link 9.

End GeoAnalyzer.

(** ** The rule table of the specification (section 4.2) *)

Module Spec.
Import GeoAnalyzer.

Inductive category : Type := Technical | Structure | Authority.

Definition category_eqb (c d : category) : bool :=
  match c, d with
  | Technical, Technical | Structure, Structure | Authority, Authority => true
  | _, _ => false
  end.

(** A row of the table: the category, the condition on the signals, the
    points, and the issue with its effort when the row has one. *)
Record rule : Type := {
  rule_category : category;
  holds : SignalSet -> bool;
  points : Z;
  issue : option (string * string)
}.

Definition rule_table : list rule :=
  [ {| rule_category := Technical; holds := hasStructuredData; points := 35;
       issue := Some ("No JSON-LD structured data", "Quick") |};
    {| rule_category := Technical; holds := hasSemanticSectioning; points := 20;
       issue := Some ("Limited semantic HTML", "Moderate") |};
    {| rule_category := Technical; holds := hasGoodHeadingStructure; points := 20;
       issue := Some ("Fix heading hierarchy", "Moderate") |};
    {| rule_category := Technical; holds := hasRecentDateMention; points := 15;
       issue := Some ("Add publish/update date", "Quick") |};
    {| rule_category := Technical; holds := hasReasonableParagraphLength;
       points := 10; issue := None |};
    {| rule_category := Structure; holds := hasTabularOrDefinitionContent;
       points := 40; issue := Some ("Add spec/comparison tables", "Moderate") |};
    {| rule_category := Structure; holds := hasListContent; points := 25;
       issue := Some ("Use bullet/numbered lists", "Quick") |};
    {| rule_category := Structure; holds := mentionsFaq; points := 35;
       issue := Some ("Add FAQ section", "Moderate") |};
    {| rule_category := Authority; holds := mentionsAuthorCredential;
       points := 40; issue := Some ("Add author byline + credentials", "Quick") |};
    {| rule_category := Authority;
       holds := fun sg => 8 <? externalLinkCount sg; points := 35;
       issue := Some ("Link to reputable sources", "Moderate") |};
    {| rule_category := Authority; holds := hasTrustBadgeImage; points := 25;
       issue := None |} ].

Definition sum (l : list Z) : Z := fold_right Z.add 0 l.

Definition applies (c : category) (sg : SignalSet) (r : rule) : bool :=
  category_eqb (rule_category r) c && holds r sg.

(** The sub-score of a category: the points of its rules that hold. *)
Definition subscore_in (l : list rule) (c : category) (sg : SignalSet) : Z :=
  sum (map points (List.filter (applies c sg) l)).

Definition subscore : category -> SignalSet -> Z := subscore_in rule_table.

(** The rules of a category, and the points they have to award. *)
Definition rules_of (c : category) : list rule :=
  List.filter (fun r => category_eqb (rule_category r) c) rule_table.

Definition category_points (c : category) : list Z :=
  map points (rules_of c).

Definition category_maximum (c : category) : Z := sum (category_points c).

Definition issue_list (r : rule) : list (string * string) :=
  match issue r with Some i => [i] | None => [] end.

(** Every issue of the table, in table order. *)
Definition all_issues : list (string * string) :=
  flat_map issue_list rule_table.

(** The issues of the rules that fail, in table order. *)
Definition failed_issues_in (l : list rule) (sg : SignalSet)
    : list (string * string) :=
  flat_map issue_list (List.filter (fun r => negb (holds r sg)) l).

Definition failed_issues : SignalSet -> list (string * string) :=
  failed_issues_in rule_table.

Definition all_rules_fail (sg : SignalSet) : Prop :=
  Forall (fun r => holds r sg = false) rule_table.

Definition all_rules_pass (sg : SignalSet) : Prop :=
  Forall (fun r => holds r sg = true) rule_table.

(** The table read as a program: a rule that holds awards its points to its
    category, a rule that fails appends its issue when it has one. *)
Definition award (c : category) (n : Z) : stmt :=
  match c with
  | Technical => tech_add n
  | Structure => structure_add n
  | Authority => authority_add n
  end.

Definition rule_stmt (sg : SignalSet) (r : rule) : stmt :=
  if holds r sg then award (rule_category r) (points r)
  else match issue r with
       | Some (text, effort) => issues_append text effort
       | None => skip
       end.

Definition run_rules (sg : SignalSet) (l : list rule) : stmt :=
  fun st => fold_left (fun st r => rule_stmt sg r st) l st.

(** [technicalScore*0.40 + structureScore*0.35 + authorityScore*0.25], in
    exact arithmetic. *)
Definition weighted_sum (t s a : Z) : Q :=
  (inject_Z t * (40 # 100) + inject_Z s * (35 # 100)
   + inject_Z a * (25 # 100))%Q.

(** A rational rounded to one decimal place, as a number of tenths; a tie
    goes to the even tenth. *)
Definition round_to_tenths (q : Q) : Z :=
  PyFloat.round_half_even_div (Qnum q * 10) (Zpos (Qden q)).

(** A string of the shape [dddd-dd-dd], each [d] a digit. *)
Definition iso_shaped (d : string) : bool :=
  match PyStr.chars d with
  | [y1; y2; y3; y4; h1; m1; m2; h2; d1; d2] =>
      forallb Re.is_digit [y1; y2; y3; y4; m1; m2; d1; d2] &&
      Ascii.eqb h1 "-" && Ascii.eqb h2 "-"
  | _ => false
  end.

(** One of the digit sequences 2024 to 2029. *)
Definition recent_year (d : string) : bool :=
  match PyStr.chars d with
  | [c1; c2; c3; y] =>
      Ascii.eqb c1 "2" && Ascii.eqb c2 "0" && Ascii.eqb c3 "2" &&
      Re.in_range "4" "9" y
  | _ => false
  end.

(** The values the sum of a sub-list of [l] can take. *)
Definition subset_sums (l : list Z) : list Z :=
  fold_right (fun x acc => (acc ++ map (Z.add x) acc)%list) [0] l.

(** The three sub-scores that the rules can produce together. *)
Definition attainable_scores : list (Z * (Z * Z)) :=
  list_prod (subset_sums (category_points Technical))
    (list_prod (subset_sums (category_points Structure))
       (subset_sums (category_points Authority))).

(** The final score that the specification gives for three sub-scores: the
    float written with the digits of the rounded weighted sum. *)
Definition final_score_of (t s a : Z) : spec_float :=
  PyFloat.float_of_decimal (round_to_tenths (weighted_sum t s a)) 1.

Definition float_same (x y : spec_float) : bool :=
  match x, y with
  | S754_zero s, S754_zero s' => Bool.eqb s s'
  | S754_infinity s, S754_infinity s' => Bool.eqb s s'
  | S754_nan, S754_nan => true
  | S754_finite s m e, S754_finite s' m' e' =>
      Bool.eqb s s' && Pos.eqb m m' && Z.eqb e e'
  | _, _ => false
  end.

(** What is checked of the code on each attainable triple of sub-scores:
    the final score is the specified one, it equals 0 only when the three
    sub-scores are 0, and 100 only when they are 100. *)
Definition check_final (tsa : Z * (Z * Z)) : bool :=
  let '(t, (s, a)) := tsa in
  let fs := final_score {| tech_score := t; structure_score := s;
                           authority_score := a; issues := [] |} in
  float_same fs (final_score_of t s a) &&
  Bool.eqb (PyFloat.eq_int fs 0) ((t =? 0) && (s =? 0) && (a =? 0)) &&
  Bool.eqb (PyFloat.eq_int fs 100) ((t =? 100) && (s =? 100) && (a =? 100)).

End Spec.

(** ** What the page shows (lines 22-25, 90 and 97) *)

Module Report.
Import PyFloat PyStr Classifier GeoAnalyzer.

(** [priority_class = priority.lower()] *)
Definition priority_class (final_score : spec_float) : string :=
  lower (priority final_score).

(** The classes that the style sheet of the page defines for the priority
    banner. *)
Definition css_classes : list string := ["urgent"; "high"; "medium"; "low"].

(** The letters a grade can be. *)
Definition grade_letters : list string :=
  ["A+"; "A"; "A-"; "B+"; "B"; "B-"; "C+"; "C"; "C-"; "F"].

(** One page does at least as well as another on every test of the scoring
    block. *)
Definition no_worse (sg sg' : SignalSet) : Prop :=
  (hasStructuredData sg = true -> hasStructuredData sg' = true) /\
  (hasSemanticSectioning sg = true -> hasSemanticSectioning sg' = true) /\
  (hasGoodHeadingStructure sg = true -> hasGoodHeadingStructure sg' = true) /\
  (hasRecentDateMention sg = true -> hasRecentDateMention sg' = true) /\
  (hasReasonableParagraphLength sg = true ->
   hasReasonableParagraphLength sg' = true) /\
  (hasTabularOrDefinitionContent sg = true ->
   hasTabularOrDefinitionContent sg' = true) /\
  (hasListContent sg = true -> hasListContent sg' = true) /\
  (mentionsFaq sg = true -> mentionsFaq sg' = true) /\
  (mentionsAuthorCredential sg = true -> mentionsAuthorCredential sg' = true) /\
  externalLinkCount sg <= externalLinkCount sg' /\
  (hasTrustBadgeImage sg = true -> hasTrustBadgeImage sg' = true).

(** The signals of a page on which the nine tests that have an issue
    succeed, and the two that have none fail. *)
Definition silent_tests_fail : SignalSet :=
  {| hasStructuredData := true;
     hasSemanticSectioning := true;
     hasGoodHeadingStructure := true;
     hasRecentDateMention := true;
     hasReasonableParagraphLength := false;
     hasTabularOrDefinitionContent := true;
     hasListContent := true;
     mentionsFaq := true;
     mentionsAuthorCredential := true;
     externalLinkCount := 9;
     hasTrustBadgeImage := false |}.

(** The float that [round] returns for [k] tenths. *)
Definition of_tenths (k : Z) : spec_float := float_of_decimal k 1.

(** What is checked of the float for [k] tenths: it is finite, it lies
    between 0 and 100, and it is not above the float for [k + 1] tenths. *)
Definition check_tenth (k : Z) : bool :=
  is_finite (of_tenths k) &&
  Qle_bool 0 (value (of_tenths k)) &&
  Qle_bool (value (of_tenths k)) 100 &&
  Qle_bool (value (of_tenths k)) (value (of_tenths (k + 1))).

(** The numbers of tenths from 0.0 to 100.0. *)
Definition tenths_range : list Z := map Z.of_nat (List.seq 0%nat 1001%nat).

End Report.

Import PyFloat Classifier GeoAnalyzer Report.

(** * Properties *)

(** ** The scoring block against the rule table *)

Lemma scoring_as_table (sg : SignalSet) (st : state) :
  scoring sg st = Spec.run_rules sg Spec.rule_table st.
Proof. reflexivity. Qed.

Lemma run_rules_closed_form (sg : SignalSet) (l : list Spec.rule) :
  forall st : state,
    Spec.run_rules sg l st =
    {| tech_score := tech_score st + Spec.subscore_in l Spec.Technical sg;
       structure_score :=
         structure_score st + Spec.subscore_in l Spec.Structure sg;
       authority_score :=
         authority_score st + Spec.subscore_in l Spec.Authority sg;
       issues := issues st ++ Spec.failed_issues_in l sg |}.
Proof.
  unfold Spec.run_rules, Spec.subscore_in, Spec.failed_issues_in.
  induction l as [|r l IH]; intros [t s a i]; cbn [fold_left].
  - cbn. rewrite !Z.add_0_r, app_nil_r. reflexivity.
  - rewrite IH. unfold Spec.rule_stmt, Spec.applies.
    cbn [List.filter].
    destruct (Spec.holds r sg); cbn [negb].
    + destruct (Spec.rule_category r);
        cbn [Spec.category_eqb andb Spec.award map Spec.sum fold_right
             tech_add structure_add authority_add tech_score structure_score
             authority_score issues];
        unfold Spec.sum; f_equal; lia.
    + rewrite !andb_false_r.
      cbn [flat_map]. unfold Spec.issue_list.
      destruct (Spec.issue r) as [[text effort]|];
        cbn [issues_append skip tech_score structure_score authority_score
             issues];
        rewrite <- ?app_assoc; reflexivity.
Qed.

Lemma scoring_closed_form (sg : SignalSet) :
  scoring sg initial =
  {| tech_score := Spec.subscore Spec.Technical sg;
     structure_score := Spec.subscore Spec.Structure sg;
     authority_score := Spec.subscore Spec.Authority sg;
     issues := Spec.failed_issues sg |}.
Proof.
  rewrite scoring_as_table, run_rules_closed_form. reflexivity.
Qed.

(** ** Sums of awarded points *)

Section Sums.
Variable f : Spec.rule -> bool.

Lemma sum_filter_in_subset_sums (l : list Spec.rule) :
  In (Spec.sum (map Spec.points (List.filter f l)))
     (Spec.subset_sums (map Spec.points l)).
Proof.
  induction l as [|r l IH]; cbn [List.filter map Spec.subset_sums fold_right].
  - left. reflexivity.
  - fold (Spec.subset_sums (map Spec.points l)).
    apply in_or_app. destruct (f r).
    + right. cbn [map Spec.sum fold_right]. apply in_map. exact IH.
    + left. exact IH.
Qed.

Lemma sum_filter_bounds (l : list Spec.rule) :
  Forall (fun r => 0 < Spec.points r) l ->
  0 <= Spec.sum (map Spec.points (List.filter f l))
    <= Spec.sum (map Spec.points l).
Proof.
  induction 1 as [|r l Hr _ IH]; cbn [List.filter map Spec.sum fold_right].
  - lia.
  - destruct (f r); cbn [map Spec.sum fold_right];
      unfold Spec.sum in IH; lia.
Qed.

Lemma sum_filter_zero (l : list Spec.rule) :
  Forall (fun r => 0 < Spec.points r) l ->
  Spec.sum (map Spec.points (List.filter f l)) = 0 <->
  Forall (fun r => f r = false) l.
Proof.
  induction 1 as [|r l Hr Hl IH]; cbn [List.filter].
  - split; [constructor | reflexivity].
  - pose proof (sum_filter_bounds l Hl) as B.
    destruct (f r) eqn:E; cbn [map Spec.sum fold_right].
    + split.
      * unfold Spec.sum in *. lia.
      * intros H'. apply Forall_cons_iff in H'. destruct H' as [H' _].
        congruence.
    + rewrite Forall_cons_iff, <- IH. unfold Spec.sum. tauto.
Qed.

Lemma sum_filter_full (l : list Spec.rule) :
  Forall (fun r => 0 < Spec.points r) l ->
  Spec.sum (map Spec.points (List.filter f l)) = Spec.sum (map Spec.points l)
  <-> Forall (fun r => f r = true) l.
Proof.
  induction 1 as [|r l Hr Hl IH]; cbn [List.filter].
  - split; [constructor | reflexivity].
  - pose proof (sum_filter_bounds l Hl) as B.
    destruct (f r) eqn:E; cbn [map Spec.sum fold_right].
    + rewrite Forall_cons_iff, <- IH. unfold Spec.sum. intuition lia.
    + split.
      * unfold Spec.sum in *. lia.
      * intros H'. apply Forall_cons_iff in H'. destruct H' as [H' _].
        congruence.
Qed.

End Sums.

(** ** The sub-scores *)

Lemma filter_applies (c : Spec.category) (sg : SignalSet)
    (l : list Spec.rule) :
  List.filter (Spec.applies c sg) l =
  List.filter (fun r => Spec.holds r sg)
    (List.filter (fun r => Spec.category_eqb (Spec.rule_category r) c) l).
Proof.
  induction l as [|r l IH]; [reflexivity|].
  unfold Spec.applies in *. cbn [List.filter].
  destruct (Spec.category_eqb (Spec.rule_category r) c); cbn [andb List.filter];
    rewrite IH; reflexivity.
Qed.

Lemma subscore_rules_of (c : Spec.category) (sg : SignalSet) :
  Spec.subscore c sg =
  Spec.sum (map Spec.points
              (List.filter (fun r => Spec.holds r sg) (Spec.rules_of c))).
Proof.
  unfold Spec.subscore, Spec.subscore_in. rewrite filter_applies. reflexivity.
Qed.

Lemma rules_of_positive (c : Spec.category) :
  Forall (fun r => 0 < Spec.points r) (Spec.rules_of c).
Proof. destruct c; repeat constructor. Qed.

Lemma category_maximum_100 (c : Spec.category) : Spec.category_maximum c = 100.
Proof. destruct c; reflexivity. Qed.

Lemma subscore_bounds (c : Spec.category) (sg : SignalSet) :
  0 <= Spec.subscore c sg <= 100.
Proof.
  rewrite subscore_rules_of, <- (category_maximum_100 c).
  apply sum_filter_bounds, rules_of_positive.
Qed.

Lemma subscore_zero (c : Spec.category) (sg : SignalSet) :
  Spec.subscore c sg = 0 <->
  Forall (fun r => Spec.holds r sg = false) (Spec.rules_of c).
Proof.
  rewrite subscore_rules_of. apply sum_filter_zero, rules_of_positive.
Qed.

Lemma subscore_100 (c : Spec.category) (sg : SignalSet) :
  Spec.subscore c sg = 100 <->
  Forall (fun r => Spec.holds r sg = true) (Spec.rules_of c).
Proof.
  rewrite subscore_rules_of, <- (category_maximum_100 c).
  apply sum_filter_full, rules_of_positive.
Qed.

Lemma rule_table_by_category :
  Spec.rule_table =
  (Spec.rules_of Spec.Technical ++ Spec.rules_of Spec.Structure
   ++ Spec.rules_of Spec.Authority)%list.
Proof. reflexivity. Qed.

Lemma subscores_attainable (sg : SignalSet) :
  In (Spec.subscore Spec.Technical sg,
      (Spec.subscore Spec.Structure sg, Spec.subscore Spec.Authority sg))
     Spec.attainable_scores.
Proof.
  unfold Spec.attainable_scores.
  repeat apply in_prod; rewrite subscore_rules_of;
    apply sum_filter_in_subset_sums.
Qed.

Lemma float_same_eq (x y : spec_float) : Spec.float_same x y = true -> x = y.
Proof.
  destruct x as [s|s| |s m e], y as [s'|s'| |s' m' e']; cbn;
    try discriminate; try reflexivity.
  - intros H. apply eqb_prop in H. congruence.
  - intros H. apply eqb_prop in H. congruence.
  - intros H. apply andb_prop in H. destruct H as [H He].
    apply andb_prop in H. destruct H as [Hs Hm].
    apply eqb_prop in Hs. apply Pos.eqb_eq in Hm. apply Z.eqb_eq in He.
    congruence.
Qed.

(** The final score does not depend on the issues. *)
Lemma final_score_scores (t s a : Z) (i : list (string * string)) :
  final_score {| tech_score := t; structure_score := s;
                 authority_score := a; issues := i |} =
  final_score {| tech_score := t; structure_score := s;
                 authority_score := a; issues := [] |}.
Proof. reflexivity. Qed.

(** The check of the final score succeeds on the 2048 attainable triples. *)
Lemma check_final_attainable :
  forallb Spec.check_final Spec.attainable_scores = true.
Proof. vm_compute. reflexivity. Qed.

Lemma check_final_scoring (sg : SignalSet) :
  Spec.check_final
    (Spec.subscore Spec.Technical sg,
     (Spec.subscore Spec.Structure sg, Spec.subscore Spec.Authority sg))
  = true.
Proof.
  pose proof check_final_attainable as H.
  rewrite forallb_forall in H. apply H, subscores_attainable.
Qed.

(** What the check establishes on one triple of sub-scores. *)
Lemma check_final_sound (t s a : Z) :
  Spec.check_final (t, (s, a)) = true ->
  let fs := final_score {| tech_score := t; structure_score := s;
                           authority_score := a; issues := [] |} in
  fs = Spec.final_score_of t s a /\
  eq_int fs 0 = (t =? 0) && (s =? 0) && (a =? 0) /\
  eq_int fs 100 = (t =? 100) && (s =? 100) && (a =? 100).
Proof.
  unfold Spec.check_final. intros H.
  apply andb_prop in H. destruct H as [H H100].
  apply andb_prop in H. destruct H as [H H0].
  apply float_same_eq in H. apply eqb_prop in H0. apply eqb_prop in H100.
  cbv zeta. auto.
Qed.

Lemma final_score_scoring (sg : SignalSet) :
  let t := Spec.subscore Spec.Technical sg in
  let s := Spec.subscore Spec.Structure sg in
  let a := Spec.subscore Spec.Authority sg in
  let fs := final_score (scoring sg initial) in
  fs = Spec.final_score_of t s a /\
  eq_int fs 0 = (t =? 0) && (s =? 0) && (a =? 0) /\
  eq_int fs 100 = (t =? 100) && (s =? 100) && (a =? 100).
Proof.
  cbv zeta. rewrite scoring_closed_form, final_score_scores.
  apply check_final_sound, check_final_scoring.
Qed.

Lemma scores_of_scoring (sg : SignalSet) :
  tech_score (scoring sg initial) = Spec.subscore Spec.Technical sg /\
  structure_score (scoring sg initial) = Spec.subscore Spec.Structure sg /\
  authority_score (scoring sg initial) = Spec.subscore Spec.Authority sg /\
  issues (scoring sg initial) = Spec.failed_issues sg.
Proof. rewrite scoring_closed_form. repeat split. Qed.

(** ** Sub-scores and final score *)

(** C5. For every signal set each of the three sub-scores lies between 0
    and 100, the points of each category add up to exactly 100 (in the
    table, and in the code when every test succeeds), and the final score
    computed in binary floating point is the float written with the digits
    of the exact weighted sum
    [0.40 * technical + 0.35 * structure + 0.25 * authority] rounded to one
    decimal place. *)
Theorem sub_scores_and_final_score (sg : SignalSet) :
  let st := scoring sg initial in
  let top := scoring every_signal initial in
  0 <= tech_score st <= 100 /\
  0 <= structure_score st <= 100 /\
  0 <= authority_score st <= 100 /\
  (forall c, Spec.category_maximum c = 100) /\
  (tech_score top = 100 /\ structure_score top = 100 /\
   authority_score top = 100) /\
  final_score st =
  float_of_decimal
    (Spec.round_to_tenths
       (Spec.weighted_sum (tech_score st) (structure_score st)
          (authority_score st))) 1.
Proof.
  intros st top.
  destruct (scores_of_scoring sg) as (Ht & Hs & Ha & _).
  destruct (final_score_scoring sg) as (Hf & _).
  fold st in Ht, Hs, Ha, Hf. rewrite Ht, Hs, Ha, Hf.
  repeat split; try apply subscore_bounds.
  apply category_maximum_100.
Qed.

Lemma Forall_rule_table (P : Spec.rule -> Prop) :
  Forall P Spec.rule_table <->
  Forall P (Spec.rules_of Spec.Technical) /\
  Forall P (Spec.rules_of Spec.Structure) /\
  Forall P (Spec.rules_of Spec.Authority).
Proof.
  rewrite rule_table_by_category, !Forall_app. tauto.
Qed.

(** C6. For every signal set, the final score equals 0 exactly when every
    rule of the three categories fails, and equals 100 exactly when every
    rule passes. *)
Theorem final_score_extremes (sg : SignalSet) :
  let fs := final_score (scoring sg initial) in
  (eq_int fs 0 = true <-> Spec.all_rules_fail sg) /\
  (eq_int fs 100 = true <-> Spec.all_rules_pass sg).
Proof.
  intros fs.
  destruct (final_score_scoring sg) as (_ & H0 & H100).
  fold fs in H0, H100. rewrite H0, H100.
  unfold Spec.all_rules_fail, Spec.all_rules_pass.
  rewrite !Forall_rule_table, !andb_true_iff, !Z.eqb_eq,
    <- !subscore_zero, <- !subscore_100.
  tauto.
Qed.

(** ** The list of issues *)

Lemma failed_issues_sublist (sg : SignalSet) (l : list Spec.rule) :
  sublist (Spec.failed_issues_in l sg) (flat_map Spec.issue_list l).
Proof.
  unfold Spec.failed_issues_in.
  induction l as [|r l IH]; cbn [List.filter flat_map]; [constructor|].
  destruct (Spec.holds r sg); cbn [negb flat_map].
  - apply sublist_inserts_l, IH.
  - apply sublist_app; [reflexivity | exact IH].
Qed.

Lemma issues_sublist_all (sg : SignalSet) :
  sublist (issues (scoring sg initial)) Spec.all_issues.
Proof.
  destruct (scores_of_scoring sg) as (_ & _ & _ & Hi). rewrite Hi.
  apply failed_issues_sublist.
Qed.

(** C8. For every signal set, the list of issues consists of the issue of
    each failed rule, in the order of the rule table: technical rules first,
    then structural, then authority. Whatever the signals, it is a
    sub-sequence of one fixed list, so only the presence of an entry varies
    and never the relative order of two entries. *)
Theorem issues_in_table_order (sg : SignalSet) :
  issues (scoring sg initial) = Spec.failed_issues sg /\
  sublist (issues (scoring sg initial))
    [ ("No JSON-LD structured data", "Quick");
      ("Limited semantic HTML", "Moderate");
      ("Fix heading hierarchy", "Moderate");
      ("Add publish/update date", "Quick");
      ("Add spec/comparison tables", "Moderate");
      ("Use bullet/numbered lists", "Quick");
      ("Add FAQ section", "Moderate");
      ("Add author byline + credentials", "Quick");
      ("Link to reputable sources", "Moderate") ].
Proof.
  split.
  - apply scores_of_scoring.
  - exact (issues_sublist_all sg).
Qed.

Lemma Forall_of_sublist {A} (P : A -> Prop) (l1 l2 : list A) :
  sublist l1 l2 -> Forall P l2 -> Forall P l1.
Proof.
  induction 1 as [|x l1 l2 _ IH|x l1 l2 _ IH]; intros H.
  - constructor.
  - apply Forall_cons_iff in H. destruct H as [Hx H].
    constructor; [exact Hx | exact (IH H)].
  - apply Forall_cons_iff in H. destruct H as [_ H]. exact (IH H).
Qed.

Lemma effort_icon_all_issues :
  Forall (fun ie => effort_icon (snd ie) = snd ie) Spec.all_issues.
Proof. repeat constructor. Qed.

(** C9. For every page the list of issues has at most 9 entries, so the
    first ten issues that the display shows are all the issues, and the
    displayed list is the list printed in the PDF. *)
Theorem display_shows_every_issue
    (it : list (Z * string)) (url : string) (doc : Soup.soup) :
  let st := scores (analyze it url doc) in
  (length (issues st) <= 9)%nat /\
  firstn 10 (issues st) = issues st /\
  displayed_issues st = pdf_issues st.
Proof.
  intros st.
  pose proof (issues_sublist_all (extractSignals (normalize_url url) doc))
    as Hsub.
  change (scoring _ initial) with st in Hsub.
  assert (Hlen : (length (issues st) <= 9)%nat)
    by exact (sublist_length _ _ Hsub).
  assert (Hfirst : firstn 10 (issues st) = issues st)
    by (apply firstn_all2; lia).
  repeat split; [exact Hlen | exact Hfirst |].
  unfold displayed_issues, pdf_issues. rewrite Hfirst.
  assert (Hicon : Forall (fun ie => effort_icon (snd ie) = snd ie) (issues st)).
  { exact (Forall_of_sublist _ _ _ Hsub effort_icon_all_issues). }
  clear Hsub Hlen Hfirst. induction Hicon as [|[i e] l Hx _ IH]; cbn [map].
  - reflexivity.
  - cbn [fst snd] in *. rewrite Hx, IH. reflexivity.
Qed.

(** ** Comparing a float with an integer *)

Lemma lt_int_value (x : spec_float) (n : Z) :
  is_finite x = true ->
  lt_int x n = true <-> (value x < inject_Z n)%Q.
Proof.
  intros Hx. rewrite Qlt_alt. unfold lt_int, compare_int.
  destruct x as [s|s| |s m e]; try discriminate Hx;
    destruct (_ ?= _)%Q; split; congruence.
Qed.

Lemma ge_int_value (x : spec_float) (n : Z) :
  is_finite x = true ->
  ge_int x n = true <-> (inject_Z n <= value x)%Q.
Proof.
  intros Hx.
  assert (H : ge_int x n = true <-> (value x ?= inject_Z n)%Q <> Lt).
  { unfold ge_int, compare_int.
    destruct x as [s|s| |s m e]; try discriminate Hx;
      destruct (_ ?= _)%Q; split; congruence. }
  rewrite H, <- Qlt_alt. split.
  - apply Qnot_lt_le.
  - apply Qle_not_lt.
Qed.

Lemma lt_int_false (x : spec_float) (n : Z) :
  is_finite x = true ->
  lt_int x n = false <-> (inject_Z n <= value x)%Q.
Proof.
  intros Hx. rewrite <- not_true_iff_false, (lt_int_value x n Hx). split.
  - apply Qnot_lt_le.
  - apply Qle_not_lt.
Qed.

(** A comparison that succeeds against a bound succeeds against every
    larger one; this also covers the infinities. *)
Lemma lt_int_ge_int (x : spec_float) (n m : Z) :
  lt_int x n = true -> n <= m -> ge_int x m = false.
Proof.
  unfold lt_int, ge_int, compare_int. intros H Hnm.
  assert (Hq : (inject_Z n <= inject_Z m)%Q) by (rewrite <- Zle_Qle; exact Hnm).
  destruct x as [s|s| |s m' e]; try discriminate H.
  - destruct (Qcompare_spec (value (S754_zero s)) (inject_Z n)) as [E|L|G];
      try discriminate H.
    destruct (Qcompare_spec (value (S754_zero s)) (inject_Z m)) as [E'|L'|G'];
      try reflexivity; lra.
  - destruct s; [reflexivity | discriminate H].
  - destruct (Qcompare_spec (value (S754_finite s m' e)) (inject_Z n))
      as [E|L|G]; try discriminate H.
    destruct (Qcompare_spec (value (S754_finite s m' e)) (inject_Z m))
      as [E'|L'|G']; try reflexivity; lra.
Qed.

(** ** Priority *)

(** C7. For every finite final score, in particular every score between 0
    and 100, the priority is URGENT exactly below 60, HIGH exactly from 60
    up to but excluding 75, MEDIUM exactly from 75 up to but excluding 85,
    and LOW exactly from 85 on; a score on a boundary is in the bucket
    above it. *)
Theorem priority_thresholds (x : spec_float) :
  is_finite x = true ->
  (priority x = "URGENT" <-> (value x < 60)%Q) /\
  (priority x = "HIGH" <-> (60 <= value x < 75)%Q) /\
  (priority x = "MEDIUM" <-> (75 <= value x < 85)%Q) /\
  (priority x = "LOW" <-> (85 <= value x)%Q).
Proof.
  intros Hx. unfold priority.
  pose proof (lt_int_value x 60 Hx) as T60.
  pose proof (lt_int_value x 75 Hx) as T75.
  pose proof (lt_int_value x 85 Hx) as T85.
  pose proof (lt_int_false x 60 Hx) as F60.
  pose proof (lt_int_false x 75 Hx) as F75.
  pose proof (lt_int_false x 85 Hx) as F85.
  change (inject_Z 60) with 60%Q in *.
  change (inject_Z 75) with 75%Q in *.
  change (inject_Z 85) with 85%Q in *.
  destruct (lt_int x 60); [|destruct (lt_int x 75); [|destruct (lt_int x 85)]].
  - assert (value x < 60)%Q by (apply T60; reflexivity).
    repeat split; intros; try discriminate; try lra.
  - assert (60 <= value x)%Q by (apply F60; reflexivity).
    assert (value x < 75)%Q by (apply T75; reflexivity).
    repeat split; intros; try discriminate; try lra.
  - assert (75 <= value x)%Q by (apply F75; reflexivity).
    assert (value x < 85)%Q by (apply T85; reflexivity).
    repeat split; intros; try discriminate; try lra.
  - assert (85 <= value x)%Q by (apply F85; reflexivity).
    repeat split; intros; try discriminate; try lra.
Qed.

(** The score 60.0 is finite and its priority is HIGH, not URGENT. *)
Lemma priority_thresholds_witness :
  is_finite (float_of_decimal 600 1) = true /\
  (priority (float_of_decimal 600 1) = "HIGH" <->
   (60 <= value (float_of_decimal 600 1) < 75)%Q).
Proof.
  split.
  - reflexivity.
  - apply (priority_thresholds (float_of_decimal 600 1)). reflexivity.
Defined.

(** ** Grade *)

Lemma filter_none {A} (f : A -> bool) (l : list A) :
  Forall (fun x => f x = false) l -> List.filter f l = [].
Proof.
  induction 1 as [|x l Hx _ IH]; cbn [List.filter]; [reflexivity|].
  rewrite Hx. exact IH.
Qed.

(** Every threshold of the set is at least 60. *)
Lemma grades_at_least_60 (it : list (Z * string)) :
  set_iteration it grades -> Forall (fun sg => 60 <= fst sg) it.
Proof.
  intros [_ Hset]. apply Forall_forall. intros sg Hin.
  assert (Hg : sg ∈ grades).
  { rewrite <- Hset. apply elem_of_list_to_set. exact Hin. }
  unfold grades in Hg. rewrite !elem_of_union, !elem_of_singleton in Hg.
  repeat destruct Hg as [Hg|Hg]; subst sg; cbn [fst]; lia.
Qed.

(** Below 60 no threshold is met, whatever the order of iteration. *)
Lemma grade_below_60 (it : list (Z * string)) (x : spec_float) :
  set_iteration it grades -> lt_int x 60 = true -> grade it x = "F".
Proof.
  intros Hit Hx. unfold grade. rewrite filter_none; [reflexivity|].
  eapply Forall_impl; [exact (grades_at_least_60 it Hit)|].
  intros sg Hsg. exact (lt_int_ge_int x 60 (fst sg) Hx Hsg).
Qed.

(** In the order in which the literal is written, the scan takes the
    highest threshold that the score meets. *)
Lemma grade_as_written (x : spec_float) :
  grade grades_as_written x =
  if ge_int x 94 then "A+" else if ge_int x 87 then "A"
  else if ge_int x 80 then "A-" else if ge_int x 77 then "B+"
  else if ge_int x 73 then "B" else if ge_int x 70 then "B-"
  else if ge_int x 67 then "C+" else if ge_int x 63 then "C"
  else if ge_int x 60 then "C-" else "F".
Proof.
  unfold grade, grades_as_written. cbn [List.filter fst].
  repeat (destruct (ge_int x _); [reflexivity|]). reflexivity.
Qed.

(** An order in which the set may be iterated: the threshold 87 first. *)
Lemma iteration_87_first :
  set_iteration
    [ (87, "A"); (94, "A+"); (80, "A-"); (77, "B+"); (73, "B");
      (70, "B-"); (67, "C+"); (63, "C"); (60, "C-") ] grades.
Proof.
  split; apply (bool_decide_unpack _); vm_compute; reflexivity.
Qed.

Lemma iteration_as_written : set_iteration grades_as_written grades.
Proof.
  split; apply (bool_decide_unpack _); vm_compute; reflexivity.
Qed.

(** C1. The thresholds are held in a set, and the scan takes the first
    threshold met in the order of iteration, which need not be from highest
    to lowest: iterated with 87 before 94, the final score 94.0 is graded A
    and not A+, while the order of the literal gives A+ for 94.0 and A for
    93.9. *)
Theorem grade_follows_iteration_order :
  let it := [ (87, "A"); (94, "A+"); (80, "A-"); (77, "B+"); (73, "B");
              (70, "B-"); (67, "C+"); (63, "C"); (60, "C-") ] in
  set_iteration it grades /\
  grade it (float_of_decimal 940 1) = "A" /\
  grade grades_as_written (float_of_decimal 940 1) = "A+" /\
  grade grades_as_written (float_of_decimal 939 1) = "A".
Proof.
  split; [exact iteration_87_first|]. repeat split.
Qed.

(** C2. The classification is not a function of the final score alone: two
    iterations of the set of thresholds give the score 94.0 two different
    grades. *)
Theorem classify_depends_on_iteration :
  exists it1 it2 : list (Z * string),
    set_iteration it1 grades /\ set_iteration it2 grades /\
    classify it1 (float_of_decimal 940 1)
    <> classify it2 (float_of_decimal 940 1).
Proof.
  exists grades_as_written.
  exists [ (87, "A"); (94, "A+"); (80, "A-"); (77, "B+"); (73, "B");
           (70, "B-"); (67, "C+"); (63, "C"); (60, "C-") ].
  split; [exact iteration_as_written|].
  split; [exact iteration_87_first|].
  vm_compute. discriminate.
Qed.

(** ** The empty page *)

(** C3, as stated, fails on the empty page: the technical score and the
    final score are not 0, and there are not 8 issues. *)
Lemma empty_markup_not_all_zero :
  let r := analyze grades_as_written "https://example.com" empty_soup in
  tech_score (scores r) <> 0 /\
  eq_int (final r) 0 = false /\
  length (issues (scores r)) <> 8%nat /\
  ~ (tech_score (scores r) = 0 /\
     structure_score (scores r) = 0 /\
     authority_score (scores r) = 0 /\
     eq_int (final r) 0 = true /\
     the_grade r = "F" /\
     the_priority r = "URGENT" /\
     length (issues (scores r)) = 8%nat).
Proof.
  vm_compute. repeat split; try discriminate.
  intros (H & _). discriminate H.
Qed.

(** C3, amended. On the empty page every signal is false and the count of
    external links is 0, except that fewer than three long paragraphs is a
    signal that holds; so the technical score is 10, the other two are 0,
    the final score is 4.0, the grade is F, the priority is URGENT, and
    the list holds the 9 issues of the table. *)
Theorem empty_markup_analysis (it : list (Z * string)) (url : string) :
  set_iteration it grades ->
  let sg := extractSignals (normalize_url url) empty_soup in
  let r := analyze it url empty_soup in
  sg = {| hasStructuredData := false;
          hasSemanticSectioning := false;
          hasGoodHeadingStructure := false;
          hasRecentDateMention := false;
          hasReasonableParagraphLength := true;
          hasTabularOrDefinitionContent := false;
          hasListContent := false;
          mentionsFaq := false;
          mentionsAuthorCredential := false;
          externalLinkCount := 0;
          hasTrustBadgeImage := false |} /\
  tech_score (scores r) = 10 /\
  structure_score (scores r) = 0 /\
  authority_score (scores r) = 0 /\
  final r = float_of_decimal 40 1 /\
  the_grade r = "F" /\
  the_priority r = "URGENT" /\
  length (issues (scores r)) = 9%nat.
Proof.
  intros Hit sg r.
  assert (Hsg : sg = {| hasStructuredData := false;
          hasSemanticSectioning := false;
          hasGoodHeadingStructure := false;
          hasRecentDateMention := false;
          hasReasonableParagraphLength := true;
          hasTabularOrDefinitionContent := false;
          hasListContent := false;
          mentionsFaq := false;
          mentionsAuthorCredential := false;
          externalLinkCount := 0;
          hasTrustBadgeImage := false |}) by reflexivity.
  split; [exact Hsg|].
  subst r. unfold analyze. fold sg. rewrite Hsg. clear sg Hsg.
  unfold score. cbn [scores final the_grade the_priority].
  repeat split.
  apply grade_below_60; [exact Hit | reflexivity].
Qed.

Lemma empty_markup_analysis_witness :
  set_iteration grades_as_written grades /\
  tech_score (scores (analyze grades_as_written "example.com" empty_soup))
  = 10.
Proof.
  assert (Hit : set_iteration grades_as_written grades)
    by (split; apply (bool_decide_unpack _); vm_compute; reflexivity).
  split.
  - exact Hit.
  - apply (empty_markup_analysis grades_as_written "example.com"). exact Hit.
Defined.

(** ** External links *)

(** C4. A link whose target has no host is not left out of the count: its
    network location is the empty string, which differs from the host of
    the page. A page of nine links to [/about] has [external = 9], is
    awarded the 35 points, and gets no issue about reputable sources. *)
Theorem relative_links_count_as_external :
  let url := "https://example.com/" in
  let st := scores (analyze grades_as_written url nine_relative_links) in
  Url.netloc "/about" = EmptyString /\
  Url.netloc (normalize_url url) = "example.com" /\
  external (normalize_url url) nine_relative_links = 9 /\
  authority_score st = 35 /\
  ~ In ("Link to reputable sources", "Moderate") (issues st).
Proof.
  vm_compute. repeat split.
  intros H. repeat (destruct H as [H|H]; [discriminate H|]). exact H.
Qed.


(** ** The recent-date pattern *)

Lemma chars_app (s t : string) :
  PyStr.chars (s ++ t) = (PyStr.chars s ++ PyStr.chars t)%list.
Proof.
  unfold PyStr.chars. induction s as [|c s IH]; [reflexivity|].
  change (list_ascii_of_string (String c s ++ t))
    with (c :: list_ascii_of_string (s ++ t)).
  rewrite IH. reflexivity.
Qed.

Section Search.
Variables (ignorecase : bool) (r : Re.regex) (s : list ascii).
Hypothesis here : forall b, Re.matches_at ignorecase r (b, s) = true.

(** A match at [s] is found behind any non-empty prefix... *)
Lemma search_from_prefix (pre : list ascii) (c : ascii) :
  Re.search_from ignorecase r (c :: pre ++ s) = true.
Proof.
  revert c. induction pre as [|c' pre IH]; intros c.
  - cbn [Re.search_from app]. rewrite here. reflexivity.
  - change (Re.search_from ignorecase r (c :: (c' :: pre) ++ s))
      with (Re.matches_at ignorecase r (false, c' :: pre ++ s)
            || Re.search_from ignorecase r (c' :: pre ++ s)).
    rewrite (IH c'). apply orb_true_r.
Qed.

(** ... and so behind any prefix. *)
Lemma search_prefix (pre text : string) :
  PyStr.chars text = s ->
  Re.search ignorecase r (pre ++ text) = true.
Proof.
  intros Ht. unfold Re.search. rewrite chars_app, Ht.
  destruct (PyStr.chars pre) as [|c l]; cbn [app].
  - rewrite here. reflexivity.
  - rewrite search_from_prefix. apply orb_true_r.
Qed.

End Search.

Lemma date_pattern_iso (d post : string) (b : bool) :
  Spec.iso_shaped d = true ->
  Re.matches_at false date_pattern (b, PyStr.chars (d ++ post)) = true.
Proof.
  unfold Spec.iso_shaped. rewrite chars_app.
  destruct (PyStr.chars d)
    as [|y1 [|y2 [|y3 [|y4 [|h1 [|m1 [|m2 [|h2 [|d1 [|d2 [|x l]]]]]]]]]]];
    try discriminate.
  cbn [forallb]. rewrite !andb_true_iff, !Ascii.eqb_eq.
  intros [[(Hy1 & Hy2 & Hy3 & Hy4 & Hm1 & Hm2 & Hd1 & Hd2 & _) ->] ->].
  unfold Re.matches_at, date_pattern.
  cbn [Re.ends Nat.iter nat_rect flat_map Re.step snd app].
  rewrite Hy1. cbn [flat_map app Re.step snd]. rewrite Hy2.
  cbn [flat_map app Re.step snd]. rewrite Hy3.
  cbn [flat_map app Re.step snd]. rewrite Hy4.
  cbn [flat_map app Re.step snd Re.ends Re.same_char Ascii.eqb Bool.eqb
       Nat.iter nat_rect].
  rewrite Hm1. cbn [flat_map app Re.step snd]. rewrite Hm2.
  cbn [flat_map app Re.step snd Re.ends Re.same_char Ascii.eqb Bool.eqb
       Nat.iter nat_rect].
  rewrite Hd1. cbn [flat_map app Re.step snd]. rewrite Hd2.
  reflexivity.
Qed.

Lemma date_pattern_year (d post : string) (b : bool) :
  Spec.recent_year d = true ->
  Re.matches_at false date_pattern (b, PyStr.chars (d ++ post)) = true.
Proof.
  unfold Spec.recent_year. rewrite chars_app.
  destruct (PyStr.chars d) as [|c1 [|c2 [|c3 [|y [|x l]]]]]; try discriminate.
  rewrite !andb_true_iff, !Ascii.eqb_eq. intros [[[-> ->] ->] Hy].
  unfold Re.matches_at, date_pattern.
  cbn [Re.ends].
  destruct (flat_map _ _) as [|p ps]; cbn [app]; [|reflexivity].
  cbn. rewrite Hy. reflexivity.
Qed.

(** C10. Whenever the plain text of the page contains a string of the shape
    [dddd-dd-dd], whether or not it is a date of the calendar, or one of the
    digit sequences 2024 to 2029, wherever it stands, the recent-date signal
    is true and the technical score includes its 15 points. *)
Theorem recent_date_signal
    (url : string) (doc : Soup.soup) (pre d post : string) :
  Spec.iso_shaped d = true \/ Spec.recent_year d = true ->
  Soup.get_text doc = pre ++ d ++ post ->
  let sg := extractSignals url doc in
  hasRecentDateMention sg = true /\
  15 <= tech_score (scoring sg initial).
Proof.
  intros Hd Htext sg.
  assert (Hsig : hasRecentDateMention sg = true).
  { subst sg. cbn [extractSignals hasRecentDateMention]. rewrite Htext.
    apply (search_prefix false date_pattern (PyStr.chars (d ++ post)));
      [|reflexivity].
    intros b. destruct Hd as [Hd|Hd].
    - apply date_pattern_iso, Hd.
    - apply date_pattern_year, Hd. }
  split; [exact Hsig|].
  destruct (scores_of_scoring sg) as (Ht & _). rewrite Ht.
  clearbody sg. unfold Spec.subscore, Spec.subscore_in, Spec.rule_table.
  unfold Spec.applies.
  cbn [List.filter Spec.rule_category Spec.category_eqb Spec.holds andb].
  rewrite Hsig.
  destruct (hasStructuredData sg), (hasSemanticSectioning sg),
    (hasGoodHeadingStructure sg), (hasReasonableParagraphLength sg);
    cbn; lia.
Qed.

(** The text [9999-99-99] is no date, and [12025] is no year. *)
Lemma recent_date_signal_witness :
  (Spec.iso_shaped "9999-99-99" = true \/ Spec.recent_year "9999-99-99" = true)
  /\
  hasRecentDateMention
    (extractSignals "https://example.com"
       [Soup.Tag "p" ∅ [Soup.NavigableString "Order 9999-99-99 shipped"]])
  = true.
Proof.
  split.
  - left. reflexivity.
  - apply (recent_date_signal "https://example.com"
             [Soup.Tag "p" ∅ [Soup.NavigableString "Order 9999-99-99 shipped"]]
             "Order " "9999-99-99" " shipped").
    + left. reflexivity.
    + reflexivity.
Defined.

Example recent_date_embedded_year :
  let sg := extractSignals "https://example.com"
              [Soup.NavigableString "Part number 12025"] in
  hasRecentDateMention sg = true /\ tech_score (scoring sg initial) = 25.
Proof. vm_compute. split; reflexivity. Qed.

(** * Further properties of the script *)

(** ** The URL typed in *)

(** X1. Whatever is typed, the URL that is fetched starts with [http], and
    normalising it again changes nothing. *)
Theorem normalize_url_http (url : string) :
  PyStr.startswith (normalize_url url) "http" = true /\
  normalize_url (normalize_url url) = normalize_url url.
Proof.
  unfold normalize_url, PyStr.startswith.
  destruct (String.prefix "http" url) eqn:E.
  - rewrite E. split; reflexivity.
  - assert (H : String.prefix "http" ("https://" ++ url) = true)
      by reflexivity.
    rewrite H. split; reflexivity.
Qed.

(** ** The class of the priority banner *)

(** X2. For every final score, also an infinite one or NaN, the class given
    to the priority banner is one of the four classes of the style sheet. *)
Theorem priority_class_defined (x : spec_float) :
  In (priority_class x) css_classes.
Proof.
  unfold priority_class, priority, css_classes.
  destruct (lt_int x 60); [cbn; tauto|].
  destruct (lt_int x 75); [cbn; tauto|].
  destruct (lt_int x 85); cbn; tauto.
Qed.

(** ** The grade under any iteration of the set *)

(** The scan finds nothing, or returns the letter of an entry met by the
    score. *)
Lemma grade_cases (it : list (Z * string)) (x : spec_float) :
  (grade it x = "F" /\ Forall (fun sg => ge_int x (fst sg) = false) it) \/
  (exists sg, In sg it /\ ge_int x (fst sg) = true /\ grade it x = snd sg).
Proof.
  unfold grade. induction it as [|sg it IH]; cbn [List.filter].
  - left. split; [reflexivity | constructor].
  - destruct (ge_int x (fst sg)) eqn:E.
    + right. exists sg. split; [left; reflexivity|]. split; [exact E|].
      reflexivity.
    + destruct IH as [[Hg Hall]|(sg' & Hin & Hge & Hg)].
      * left. split; [exact Hg | constructor; assumption].
      * right. exists sg'. split; [right; exact Hin|]. split; assumption.
Qed.

Lemma iteration_elem (it : list (Z * string)) (sg : Z * string) :
  set_iteration it grades -> In sg it -> sg ∈ grades.
Proof.
  intros [_ Hset] Hin. rewrite <- Hset.
  apply elem_of_list_to_set. apply list_elem_of_In. exact Hin.
Qed.

Lemma elem_iteration (it : list (Z * string)) (sg : Z * string) :
  set_iteration it grades -> sg ∈ grades -> In sg it.
Proof.
  intros [_ Hset] Hin. rewrite <- Hset in Hin.
  apply elem_of_list_to_set in Hin. apply list_elem_of_In. exact Hin.
Qed.

Lemma grades_elem (sg : Z * string) :
  sg ∈ grades <-> In sg grades_as_written.
Proof.
  unfold grades, grades_as_written.
  rewrite !elem_of_union, !elem_of_singleton. cbn [In].
  intuition congruence.
Qed.

(** No two entries of the set carry the same letter, and none carries F. *)
Lemma grades_letters_unique (p q : Z * string) :
  In p grades_as_written -> In q grades_as_written ->
  snd p = snd q -> p = q.
Proof.
  unfold grades_as_written. cbn [In]. intros Hp Hq.
  repeat (destruct Hp as [Hp|Hp]; [subst p|]); try contradiction;
    repeat (destruct Hq as [Hq|Hq]; [subst q|]); try contradiction;
    cbn [snd]; intros E; try reflexivity; discriminate E.
Qed.

Lemma grades_letter_not_F (p : Z * string) :
  In p grades_as_written -> snd p <> "F" /\ In (snd p) grade_letters.
Proof.
  unfold grades_as_written, grade_letters. cbn [In]. intros Hp.
  repeat (destruct Hp as [Hp|Hp]; [subst p|]); try contradiction;
    cbn [snd]; (split; [discriminate | tauto]).
Qed.

(** X3. In whatever order the set of thresholds is iterated, the grade is
    one of the ten letters, and it is never a letter whose threshold the
    score misses: the order can lower a grade but cannot raise it. *)
Theorem grade_never_above_score
    (it : list (Z * string)) (x : spec_float) (s : Z) :
  set_iteration it grades ->
  In (grade it x) grade_letters /\
  ((s, grade it x) ∈ grades -> ge_int x s = true).
Proof.
  intros Hit.
  destruct (grade_cases it x) as [[Hg _]|(sg & Hin & Hge & Hg)].
  - rewrite Hg. split.
    + unfold grade_letters. cbn. tauto.
    + intros Hs. apply grades_elem in Hs.
      destruct (grades_letter_not_F _ Hs) as [HF _]. cbn [snd] in HF.
      congruence.
  - pose proof (iteration_elem it sg Hit Hin) as Hsg.
    apply grades_elem in Hsg. rewrite Hg. split.
    + apply grades_letter_not_F, Hsg.
    + intros Hs. apply grades_elem in Hs.
      assert (E : (s, snd sg) = sg)
        by (apply grades_letters_unique; [exact Hs | exact Hsg | reflexivity]).
      rewrite <- E in Hge. exact Hge.
Qed.

Lemma grade_never_above_score_witness :
  set_iteration grades_as_written grades /\
  In (grade grades_as_written (float_of_decimal 875 1)) grade_letters.
Proof.
  assert (Hit : set_iteration grades_as_written grades)
    by (split; apply (bool_decide_unpack _); vm_compute; reflexivity).
  split.
  - exact Hit.
  - apply (grade_never_above_score grades_as_written
             (float_of_decimal 875 1) 87 Hit).
Defined.

Lemma ge_int_not_lt_int (x : spec_float) (n : Z) :
  is_finite x = true -> ge_int x n = negb (lt_int x n).
Proof.
  intros Hx. unfold ge_int, lt_int, compare_int.
  destruct x as [s|s| |s m e]; try discriminate Hx;
    destruct (_ ?= _)%Q; reflexivity.
Qed.

(** X4. In whatever order the set is iterated, a finite score is graded F
    exactly when it is below 60, which is exactly when its priority is
    URGENT. *)
Theorem grade_F_iff_urgent (it : list (Z * string)) (x : spec_float) :
  set_iteration it grades -> is_finite x = true ->
  (grade it x = "F" <-> (value x < 60)%Q) /\
  (grade it x = "F" <-> priority x = "URGENT").
Proof.
  intros Hit Hx.
  assert (H60 : grade it x = "F" <-> lt_int x 60 = true).
  { split.
    - intros Hg. destruct (lt_int x 60) eqn:E; [reflexivity|]. exfalso.
      assert (Hge : ge_int x 60 = true)
        by (rewrite (ge_int_not_lt_int x 60 Hx), E; reflexivity).
      destruct (grade_cases it x) as [[_ Hall]|(sg & Hin & _ & Hsg)].
      + assert (Hc : In (60, "C-") it).
        { apply (elem_iteration it _ Hit), grades_elem.
          unfold grades_as_written. cbn. tauto. }
        rewrite Forall_forall in Hall.
        apply list_elem_of_In in Hc. specialize (Hall _ Hc).
        cbn [fst] in Hall. congruence.
      + pose proof (iteration_elem it sg Hit Hin) as Hel.
        apply grades_elem in Hel.
        destruct (grades_letter_not_F _ Hel) as [HF _]. congruence.
    - apply grade_below_60, Hit. }
  split.
  - rewrite H60. apply (lt_int_value x 60 Hx).
  - rewrite H60. unfold priority.
    destruct (lt_int x 60); [tauto|].
    destruct (lt_int x 75); [split; discriminate|].
    destruct (lt_int x 85); split; discriminate.
Qed.

Lemma grade_F_iff_urgent_witness :
  set_iteration grades_as_written grades /\
  is_finite (float_of_decimal 599 1) = true /\
  (grade grades_as_written (float_of_decimal 599 1) = "F" <->
   priority (float_of_decimal 599 1) = "URGENT").
Proof.
  assert (Hit : set_iteration grades_as_written grades)
    by (split; apply (bool_decide_unpack _); vm_compute; reflexivity).
  split; [exact Hit|]. split; [reflexivity|].
  apply (grade_F_iff_urgent grades_as_written (float_of_decimal 599 1) Hit).
  reflexivity.
Defined.

(** ** The final score in integers *)

Lemma round_half_even_div_mono (n n' d : Z) :
  0 < d -> n <= n' ->
  round_half_even_div n d <= round_half_even_div n' d.
Proof.
  intros Hd Hn. unfold round_half_even_div.
  pose proof (Z.div_le_mono n n' d Hd Hn) as Hq.
  pose proof (Z.div_mod n d ltac:(lia)) as En.
  pose proof (Z.div_mod n' d ltac:(lia)) as En'.
  pose proof (Z.mod_pos_bound n d Hd) as Br.
  pose proof (Z.mod_pos_bound n' d Hd) as Br'.
  destruct (Z.eq_dec (n / d) (n' / d)) as [E|E].
  - rewrite <- E in *.
    assert (Hr : n mod d <= n' mod d) by lia.
    destruct (Z.compare_spec (2 * (n mod d)) d),
      (Z.compare_spec (2 * (n' mod d)) d);
      destruct (Z.even (n / d)); lia.
  - destruct (Z.compare_spec (2 * (n mod d)) d),
      (Z.compare_spec (2 * (n' mod d)) d);
      destruct (Z.even (n / d)), (Z.even (n' / d)); lia.
Qed.

Lemma round_half_even_div_scale (n d c : Z) :
  0 < d -> 0 < c ->
  round_half_even_div (n * c) (d * c) = round_half_even_div n d.
Proof.
  intros Hd Hc. unfold round_half_even_div.
  rewrite Z.div_mul_cancel_r by lia.
  rewrite Z.mul_mod_distr_r by lia.
  replace (2 * (n mod d * c)) with (2 * (n mod d) * c) by lia.
  assert (Hcmp : (2 * (n mod d) * c ?= d * c) = (2 * (n mod d) ?= d)).
  { destruct (Z.compare_spec (2 * (n mod d)) d) as [E|L|G].
    - rewrite E. apply Z.compare_refl.
    - apply Z.compare_lt_iff. nia.
    - apply Z.compare_gt_iff. nia. }
  rewrite Hcmp. reflexivity.
Qed.

(** The number of tenths of the specified final score: half of
    [8 t + 7 s + 5 a], a half going to the even side. *)
Lemma round_to_tenths_weighted_sum (t s a : Z) :
  Spec.round_to_tenths (Spec.weighted_sum t s a) =
  round_half_even_div (8 * t + 7 * s + 5 * a) 2.
Proof.
  unfold Spec.round_to_tenths, Spec.weighted_sum.
  cbn [Qnum Qden Qplus Qmult inject_Z Pos.mul].
  rewrite <- (round_half_even_div_scale (8 * t + 7 * s + 5 * a) 2 500000)
    by lia.
  f_equal; lia.
Qed.

(** The floats for 0.0, 0.1, ..., 100.0 pass the check. *)
Lemma check_tenths_range : forallb check_tenth tenths_range = true.
Proof. vm_compute. reflexivity. Qed.

Lemma of_tenths_facts (k : Z) :
  0 <= k <= 1000 ->
  is_finite (of_tenths k) = true /\
  (0 <= value (of_tenths k) <= 100)%Q /\
  (value (of_tenths k) <= value (of_tenths (k + 1)))%Q.
Proof.
  intros Hk. pose proof check_tenths_range as H.
  rewrite forallb_forall in H. specialize (H k).
  assert (Hin : In k tenths_range).
  { unfold tenths_range. apply in_map_iff. exists (Z.to_nat k).
    split; [lia|]. apply in_seq. lia. }
  specialize (H Hin). unfold check_tenth in H.
  rewrite !andb_true_iff, !Qle_bool_iff in H. tauto.
Qed.

Lemma of_tenths_mono_steps (n : nat) (k : Z) :
  0 <= k -> k + Z.of_nat n <= 1000 ->
  (value (of_tenths k) <= value (of_tenths (k + Z.of_nat n)))%Q.
Proof.
  induction n as [|n IH]; intros H0 H1.
  - replace (k + Z.of_nat 0) with k by lia. apply Qle_refl.
  - replace (k + Z.of_nat (S n)) with (k + Z.of_nat n + 1) by lia.
    eapply Qle_trans; [apply IH; lia|].
    apply of_tenths_facts. lia.
Qed.

Lemma of_tenths_mono (k k' : Z) :
  0 <= k -> k <= k' -> k' <= 1000 ->
  (value (of_tenths k) <= value (of_tenths k'))%Q.
Proof.
  intros H0 H1 H2.
  replace k' with (k + Z.of_nat (Z.to_nat (k' - k))) by lia.
  apply of_tenths_mono_steps; lia.
Qed.

Lemma half_tenths_bounds (n : Z) :
  0 <= n <= 2000 -> 0 <= round_half_even_div n 2 <= 1000.
Proof.
  intros Hn. split.
  - change 0 with (round_half_even_div 0 2) at 1.
    apply round_half_even_div_mono; lia.
  - change 1000 with (round_half_even_div 2000 2).
    apply round_half_even_div_mono; lia.
Qed.

(** The final score of the scoring block, written from integers. *)
Lemma final_score_tenths (sg : SignalSet) :
  final_score (scoring sg initial) =
  of_tenths
    (round_half_even_div
       (8 * Spec.subscore Spec.Technical sg
        + 7 * Spec.subscore Spec.Structure sg
        + 5 * Spec.subscore Spec.Authority sg) 2).
Proof.
  destruct (final_score_scoring sg) as (Hf & _). rewrite Hf.
  unfold Spec.final_score_of, of_tenths.
  rewrite round_to_tenths_weighted_sum. reflexivity.
Qed.

(** X5. The final score is a finite float between 0 and 100 with one
    decimal: the float written for k tenths, where k is half of
    [8 * tech_score + 7 * structure_score + 5 * authority_score], a half
    being rounded to the even side. *)
Theorem final_score_one_decimal (sg : SignalSet) :
  let st := scoring sg initial in
  let k := round_half_even_div
             (8 * tech_score st + 7 * structure_score st
              + 5 * authority_score st) 2 in
  0 <= k <= 1000 /\
  final_score st = float_of_decimal k 1 /\
  is_finite (final_score st) = true /\
  (0 <= value (final_score st) <= 100)%Q.
Proof.
  intros st k.
  destruct (scores_of_scoring sg) as (Ht & Hs & Ha & _).
  pose proof (final_score_tenths sg) as Hf.
  fold st in Ht, Hs, Ha, Hf. subst k. rewrite Ht, Hs, Ha, Hf.
  pose proof (subscore_bounds Spec.Technical sg).
  pose proof (subscore_bounds Spec.Structure sg).
  pose proof (subscore_bounds Spec.Authority sg).
  assert (Hk : 0 <= round_half_even_div
                      (8 * Spec.subscore Spec.Technical sg
                       + 7 * Spec.subscore Spec.Structure sg
                       + 5 * Spec.subscore Spec.Authority sg) 2 <= 1000)
    by (apply half_tenths_bounds; lia).
  destruct (of_tenths_facts _ Hk) as (Hfin & Hval & _).
  repeat split; try tauto; try lia.
Qed.

(** ** A page that does better on the tests *)

Lemma sum_filter_mono (f g : Spec.rule -> bool) (l : list Spec.rule) :
  Forall (fun r => 0 < Spec.points r) l ->
  Forall (fun r => f r = true -> g r = true) l ->
  Spec.sum (map Spec.points (List.filter f l))
  <= Spec.sum (map Spec.points (List.filter g l)).
Proof.
  induction l as [|r l IH]; intros Hp Hfg; [reflexivity|].
  apply Forall_cons_iff in Hp. destruct Hp as [Hr Hp].
  apply Forall_cons_iff in Hfg. destruct Hfg as [Hrfg Hfg].
  specialize (IH Hp Hfg). cbn [List.filter].
  destruct (f r) eqn:Ef.
  - rewrite (Hrfg eq_refl). cbn [map Spec.sum fold_right].
    unfold Spec.sum in *. lia.
  - destruct (g r); cbn [map Spec.sum fold_right];
      unfold Spec.sum in *; lia.
Qed.

Lemma failed_issues_antitone (sg sg' : SignalSet) (l : list Spec.rule) :
  Forall (fun r => Spec.holds r sg = true -> Spec.holds r sg' = true) l ->
  sublist (Spec.failed_issues_in l sg') (Spec.failed_issues_in l sg).
Proof.
  unfold Spec.failed_issues_in.
  induction l as [|r l IH]; intros H; [constructor|].
  apply Forall_cons_iff in H. destruct H as [Hr H]. specialize (IH H).
  cbn [List.filter].
  destruct (Spec.holds r sg) eqn:E.
  - rewrite (Hr eq_refl). cbn [negb]. exact IH.
  - destruct (Spec.holds r sg'); cbn [negb flat_map].
    + apply sublist_inserts_l, IH.
    + apply sublist_app; [reflexivity | exact IH].
Qed.

Lemma rule_table_positive :
  Forall (fun r => 0 < Spec.points r) Spec.rule_table.
Proof. repeat constructor. Qed.

Lemma no_worse_rules (sg sg' : SignalSet) :
  no_worse sg sg' ->
  Forall (fun r => Spec.holds r sg = true -> Spec.holds r sg' = true)
    Spec.rule_table.
Proof.
  intros (H1 & H2 & H3 & H4 & H5 & H6 & H7 & H8 & H9 & H10 & H11).
  unfold Spec.rule_table.
  repeat (apply Forall_cons; split); try apply Forall_nil;
    cbn [Spec.holds]; try assumption; try exact I.
  rewrite !Z.ltb_lt. lia.
Qed.

Lemma subscore_mono (c : Spec.category) (sg sg' : SignalSet) :
  no_worse sg sg' -> Spec.subscore c sg <= Spec.subscore c sg'.
Proof.
  intros H. unfold Spec.subscore, Spec.subscore_in.
  apply sum_filter_mono; [exact rule_table_positive|].
  eapply Forall_impl; [exact (no_worse_rules sg sg' H)|].
  intros r Hr. unfold Spec.applies. rewrite !andb_true_iff.
  intros [Hc Hh]. split; [exact Hc | exact (Hr Hh)].
Qed.

(** X6. When a page does at least as well as another on every test, none
    of its three sub-scores is lower, its issues are among the other's
    issues in the same order, and its final score is not lower. *)
Theorem better_page_scores_no_less (sg sg' : SignalSet) :
  no_worse sg sg' ->
  let st := scoring sg initial in
  let st' := scoring sg' initial in
  tech_score st <= tech_score st' /\
  structure_score st <= structure_score st' /\
  authority_score st <= authority_score st' /\
  sublist (issues st') (issues st) /\
  (value (final_score st) <= value (final_score st'))%Q.
Proof.
  intros H st st'.
  destruct (scores_of_scoring sg) as (Ht & Hs & Ha & Hi).
  destruct (scores_of_scoring sg') as (Ht' & Hs' & Ha' & Hi').
  pose proof (final_score_tenths sg) as Hf.
  pose proof (final_score_tenths sg') as Hf'.
  fold st in Ht, Hs, Ha, Hi, Hf. fold st' in Ht', Hs', Ha', Hi', Hf'.
  rewrite Ht, Hs, Ha, Hi, Hf, Ht', Hs', Ha', Hi', Hf'.
  pose proof (subscore_mono Spec.Technical sg sg' H).
  pose proof (subscore_mono Spec.Structure sg sg' H).
  pose proof (subscore_mono Spec.Authority sg sg' H).
  pose proof (subscore_bounds Spec.Technical sg).
  pose proof (subscore_bounds Spec.Structure sg).
  pose proof (subscore_bounds Spec.Authority sg).
  pose proof (subscore_bounds Spec.Technical sg').
  pose proof (subscore_bounds Spec.Structure sg').
  pose proof (subscore_bounds Spec.Authority sg').
  repeat split; try assumption.
  - apply failed_issues_antitone, no_worse_rules, H.
  - apply of_tenths_mono.
    + apply half_tenths_bounds. lia.
    + apply round_half_even_div_mono; lia.
    + apply half_tenths_bounds. lia.
Qed.

Lemma better_page_scores_no_less_witness :
  no_worse (extractSignals "https://example.com" empty_soup) every_signal /\
  (value (final_score
            (scoring (extractSignals "https://example.com" empty_soup)
               initial))
   <= value (final_score (scoring every_signal initial)))%Q.
Proof.
  assert (H : no_worse (extractSignals "https://example.com" empty_soup)
                every_signal).
  { unfold no_worse. vm_compute.
    repeat split; intros; try reflexivity; discriminate. }
  split.
  - exact H.
  - apply (better_page_scores_no_less _ _ H).
Defined.

(** ** Which issues are listed *)

(** In the table an issue belongs to one rule only. *)
Lemma issue_owner (r r' : Spec.rule) (i : string * string) :
  In r Spec.rule_table -> In r' Spec.rule_table ->
  Spec.issue r = Some i -> In i (Spec.issue_list r') -> r = r'.
Proof.
  unfold Spec.rule_table. cbn [In]. intros Hr Hr' Hi Hin.
  repeat (destruct Hr as [Hr|Hr]; [subst r|]); try contradiction;
    cbn in Hi; try discriminate Hi; injection Hi as <-;
    repeat (destruct Hr' as [Hr'|Hr']; [subst r'|]); try contradiction;
    cbn in Hin; try contradiction;
    destruct Hin as [Hin|[]]; try discriminate Hin; reflexivity.
Qed.

Lemma issue_listed_iff (sg : SignalSet) (r : Spec.rule)
    (i : string * string) :
  In r Spec.rule_table -> Spec.issue r = Some i ->
  In i (issues (scoring sg initial)) <-> Spec.holds r sg = false.
Proof.
  intros Hr Hi.
  destruct (scores_of_scoring sg) as (_ & _ & _ & E). rewrite E.
  unfold Spec.failed_issues, Spec.failed_issues_in.
  rewrite in_flat_map. split.
  - intros (r' & Hr' & Hin). apply filter_In in Hr'.
    destruct Hr' as [Hr' Hf]. apply negb_true_iff in Hf.
    rewrite (issue_owner r r' i Hr Hr' Hi Hin). exact Hf.
  - intros Hf. exists r. split.
    + apply filter_In. split; [exact Hr | rewrite Hf; reflexivity].
    + unfold Spec.issue_list. rewrite Hi. left. reflexivity.
Qed.

Lemma issue_listed_nth (sg : SignalSet) (n : nat) (r : Spec.rule)
    (i : string * string) :
  List.nth_error Spec.rule_table n = Some r -> Spec.issue r = Some i ->
  In i (issues (scoring sg initial)) <-> Spec.holds r sg = false.
Proof.
  intros Hn. apply issue_listed_iff. exact (List.nth_error_In _ _ Hn).
Qed.

(** X7. Each of the nine issues is in the list exactly when its own test
    fails; the one about reputable sources exactly when there are at most 8
    external links. *)
Theorem issue_listed_iff_test_fails (sg : SignalSet) :
  let l := issues (scoring sg initial) in
  (In ("No JSON-LD structured data", "Quick") l
   <-> hasStructuredData sg = false) /\
  (In ("Limited semantic HTML", "Moderate") l
   <-> hasSemanticSectioning sg = false) /\
  (In ("Fix heading hierarchy", "Moderate") l
   <-> hasGoodHeadingStructure sg = false) /\
  (In ("Add publish/update date", "Quick") l
   <-> hasRecentDateMention sg = false) /\
  (In ("Add spec/comparison tables", "Moderate") l
   <-> hasTabularOrDefinitionContent sg = false) /\
  (In ("Use bullet/numbered lists", "Quick") l
   <-> hasListContent sg = false) /\
  (In ("Add FAQ section", "Moderate") l <-> mentionsFaq sg = false) /\
  (In ("Add author byline + credentials", "Quick") l
   <-> mentionsAuthorCredential sg = false) /\
  (In ("Link to reputable sources", "Moderate") l
   <-> externalLinkCount sg <= 8).
Proof.
  intros l. subst l. repeat split.
  - apply (issue_listed_nth sg 0 _ _ eq_refl eq_refl).
  - apply (issue_listed_nth sg 0 _ _ eq_refl eq_refl).
  - apply (issue_listed_nth sg 1 _ _ eq_refl eq_refl).
  - apply (issue_listed_nth sg 1 _ _ eq_refl eq_refl).
  - apply (issue_listed_nth sg 2 _ _ eq_refl eq_refl).
  - apply (issue_listed_nth sg 2 _ _ eq_refl eq_refl).
  - apply (issue_listed_nth sg 3 _ _ eq_refl eq_refl).
  - apply (issue_listed_nth sg 3 _ _ eq_refl eq_refl).
  - apply (issue_listed_nth sg 5 _ _ eq_refl eq_refl).
  - apply (issue_listed_nth sg 5 _ _ eq_refl eq_refl).
  - apply (issue_listed_nth sg 6 _ _ eq_refl eq_refl).
  - apply (issue_listed_nth sg 6 _ _ eq_refl eq_refl).
  - apply (issue_listed_nth sg 7 _ _ eq_refl eq_refl).
  - apply (issue_listed_nth sg 7 _ _ eq_refl eq_refl).
  - apply (issue_listed_nth sg 8 _ _ eq_refl eq_refl).
  - apply (issue_listed_nth sg 8 _ _ eq_refl eq_refl).
  - intros H. apply Z.ltb_ge.
    apply (issue_listed_nth sg 9 _ _ eq_refl eq_refl). exact H.
  - intros H. apply (issue_listed_nth sg 9 _ _ eq_refl eq_refl).
    cbn [Spec.holds]. apply Z.ltb_ge. exact H.
Qed.

(** A list without issues means that the nine tests with an issue hold. *)
Lemma no_issue_no_worse (sg : SignalSet) :
  issues (scoring sg initial) = [] -> no_worse silent_tests_fail sg.
Proof.
  intros Hnil.
  assert (H : forall n r i,
             List.nth_error Spec.rule_table n = Some r ->
             Spec.issue r = Some i -> Spec.holds r sg = true).
  { intros n r i Hn Hi. destruct (Spec.holds r sg) eqn:E; [reflexivity|].
    apply (issue_listed_nth sg n r i Hn Hi) in E.
    rewrite Hnil in E. destruct E. }
  unfold no_worse, silent_tests_fail.
  cbn [hasStructuredData hasSemanticSectioning hasGoodHeadingStructure
       hasRecentDateMention hasReasonableParagraphLength
       hasTabularOrDefinitionContent hasListContent mentionsFaq
       mentionsAuthorCredential externalLinkCount hasTrustBadgeImage].
  repeat split;
    try match goal with
        | |- _ = true -> _ => intros Hx; try discriminate Hx
        end.
  - exact (H 0%nat _ _ eq_refl eq_refl).
  - exact (H 1%nat _ _ eq_refl eq_refl).
  - exact (H 2%nat _ _ eq_refl eq_refl).
  - exact (H 3%nat _ _ eq_refl eq_refl).
  - exact (H 5%nat _ _ eq_refl eq_refl).
  - exact (H 6%nat _ _ eq_refl eq_refl).
  - exact (H 7%nat _ _ eq_refl eq_refl).
  - exact (H 8%nat _ _ eq_refl eq_refl).
  - pose proof (H 9%nat _ _ eq_refl eq_refl) as H9.
    cbn [Spec.holds] in H9. apply Z.ltb_lt in H9. lia.
Qed.

(** X8. When no issue is listed, the technical score is at least 90, the
    structure score is 100, the authority score is at least 75, the final
    score is at least 89.8, and the priority is LOW: a page is given a
    priority other than LOW only together with at least one issue. *)
Theorem no_issue_low_priority (sg : SignalSet) :
  let st := scoring sg initial in
  issues st = [] ->
  90 <= tech_score st /\
  structure_score st = 100 /\
  75 <= authority_score st /\
  (value (float_of_decimal 898 1) <= value (final_score st))%Q /\
  priority (final_score st) = "LOW".
Proof.
  intros st Hnil. pose proof (no_issue_no_worse sg Hnil) as Hw.
  destruct (scores_of_scoring sg) as (Ht & Hs & Ha & _).
  pose proof (final_score_tenths sg) as Hf.
  fold st in Ht, Hs, Ha, Hf. rewrite Ht, Hs, Ha, Hf.
  pose proof (subscore_mono Spec.Technical _ _ Hw) as Mt.
  pose proof (subscore_mono Spec.Structure _ _ Hw) as Ms.
  pose proof (subscore_mono Spec.Authority _ _ Hw) as Ma.
  change (Spec.subscore Spec.Technical silent_tests_fail) with 90 in Mt.
  change (Spec.subscore Spec.Structure silent_tests_fail) with 100 in Ms.
  change (Spec.subscore Spec.Authority silent_tests_fail) with 75 in Ma.
  pose proof (subscore_bounds Spec.Technical sg).
  pose proof (subscore_bounds Spec.Structure sg).
  pose proof (subscore_bounds Spec.Authority sg).
  set (k := round_half_even_div _ 2).
  assert (Hk : 898 <= k <= 1000).
  { subst k. split.
    - change 898 with (round_half_even_div 1795 2).
      apply round_half_even_div_mono; lia.
    - apply half_tenths_bounds. lia. }
  assert (Hv : (value (of_tenths 898) <= value (of_tenths k))%Q)
    by (apply of_tenths_mono; lia).
  assert (H85 : (85 <= value (of_tenths 898))%Q)
    by (apply Qle_bool_iff; vm_compute; reflexivity).
  assert (Hfin : is_finite (of_tenths k) = true)
    by (apply of_tenths_facts; lia).
  repeat split; try lia; try exact Hv.
  unfold priority.
  assert (L60 : lt_int (of_tenths k) 60 = false).
  { apply (lt_int_false _ 60 Hfin). change (inject_Z 60) with 60%Q. lra. }
  assert (L75 : lt_int (of_tenths k) 75 = false).
  { apply (lt_int_false _ 75 Hfin). change (inject_Z 75) with 75%Q. lra. }
  assert (L85 : lt_int (of_tenths k) 85 = false).
  { apply (lt_int_false _ 85 Hfin). change (inject_Z 85) with 85%Q. lra. }
  rewrite L60, L75, L85. reflexivity.
Qed.

Lemma no_issue_low_priority_witness :
  issues (scoring every_signal initial) = [] /\
  priority (final_score (scoring every_signal initial)) = "LOW".
Proof.
  split.
  - reflexivity.
  - apply (no_issue_low_priority every_signal). reflexivity.
Defined.

(** ** The effort shown with an issue *)

(** X9. Every issue that the page displays carries the effort Quick or
    Moderate: the label Major is never shown. *)
Theorem displayed_effort_never_major (sg : SignalSet) :
  Forall (fun ie => snd ie = "Quick" \/ snd ie = "Moderate")
    (displayed_issues (scoring sg initial)).
Proof.
  unfold displayed_issues. apply Forall_map.
  apply (Forall_of_sublist _ _ (issues (scoring sg initial)));
    [apply sublist_take|].
  apply (Forall_of_sublist _ _ Spec.all_issues);
    [apply issues_sublist_all|].
  unfold Spec.all_issues. cbn.
  repeat (apply Forall_cons; split); try apply Forall_nil; try exact I;
    cbn; tauto.
Qed.

(** ** Words found anywhere in the text *)

Lemma append_cons (c : ascii) (s t : string) :
  String c s ++ t = String c (s ++ t).
Proof. reflexivity. Qed.

Lemma lower_app (s t : string) :
  PyStr.lower (s ++ t) = PyStr.lower s ++ PyStr.lower t.
Proof.
  induction s as [|c s IH]; [reflexivity|].
  rewrite append_cons. cbn [PyStr.lower]. rewrite IH, append_cons.
  reflexivity.
Qed.

Lemma prefix_app (x post : string) : String.prefix x (x ++ post) = true.
Proof.
  induction x as [|c x IH]; [destruct post; reflexivity|].
  rewrite append_cons. cbn [String.prefix].
  destruct (ascii_dec c c) as [_|N]; [exact IH | contradiction].
Qed.

Lemma contains_cons (x : string) (c : ascii) (s : string) :
  PyStr.contains x (String c s) =
  String.prefix x (String c s) || PyStr.contains x s.
Proof. reflexivity. Qed.

Lemma contains_here (x post : string) : PyStr.contains x (x ++ post) = true.
Proof.
  pose proof (prefix_app x post) as H.
  destruct (x ++ post) as [|c s]; cbn [PyStr.contains]; rewrite H;
    reflexivity.
Qed.

Lemma contains_infix (x pre post : string) :
  PyStr.contains x (pre ++ x ++ post) = true.
Proof.
  induction pre as [|c pre IH].
  - exact (contains_here x post).
  - rewrite append_cons, contains_cons, IH. apply orb_true_r.
Qed.

Lemma contains_lower_infix (x pre w post : string) :
  PyStr.lower w = x ->
  PyStr.contains x (PyStr.lower (pre ++ w ++ post)) = true.
Proof.
  intros <-. rewrite !lower_app. apply contains_infix.
Qed.

(** X10. Whenever the text of the page contains, in any mix of upper and
    lower case and anywhere, even inside a longer word, one of [by ],
    [author], [phd] or [engineer], the author signal is true and the
    authority score includes its 40 points. *)
Theorem author_signal_any_occurrence
    (url : string) (doc : Soup.soup) (pre w post : string) :
  In (PyStr.lower w) ["by "; "author"; "phd"; "engineer"] ->
  Soup.get_text doc = pre ++ w ++ post ->
  let sg := extractSignals url doc in
  mentionsAuthorCredential sg = true /\
  40 <= authority_score (scoring sg initial).
Proof.
  intros Hw Htext sg.
  assert (Hsig : mentionsAuthorCredential sg = true).
  { subst sg. cbn [extractSignals mentionsAuthorCredential].
    apply existsb_exists. exists (PyStr.lower w). split; [exact Hw|].
    rewrite Htext. apply contains_lower_infix. reflexivity. }
  split; [exact Hsig|].
  destruct (scores_of_scoring sg) as (_ & _ & Ha & _). rewrite Ha.
  clearbody sg. unfold Spec.subscore, Spec.subscore_in, Spec.rule_table.
  unfold Spec.applies.
  cbn [List.filter Spec.rule_category Spec.category_eqb Spec.holds andb].
  rewrite Hsig.
  destruct (8 <? externalLinkCount sg), (hasTrustBadgeImage sg); cbn; lia.
Qed.

(** The word "Nearby" ends in [by] and is followed by a space. *)
Lemma author_signal_any_occurrence_witness :
  In (PyStr.lower "by ") ["by "; "author"; "phd"; "engineer"] /\
  mentionsAuthorCredential
    (extractSignals "https://example.com"
       [Soup.NavigableString "Nearby parking"]) = true.
Proof.
  split.
  - left. reflexivity.
  - apply (author_signal_any_occurrence "https://example.com"
             [Soup.NavigableString "Nearby parking"] "Near" "by " "parking").
    + left. reflexivity.
    + reflexivity.
Defined.

(** X11. Whenever the text of the page contains the letters [faq] in any
    mix of upper and lower case, anywhere, the FAQ signal is true and the
    structure score includes its 35 points. *)
Theorem faq_signal_any_occurrence
    (url : string) (doc : Soup.soup) (pre w post : string) :
  PyStr.lower w = "faq" ->
  Soup.get_text doc = pre ++ w ++ post ->
  let sg := extractSignals url doc in
  mentionsFaq sg = true /\ 35 <= structure_score (scoring sg initial).
Proof.
  intros Hw Htext sg.
  assert (Hsig : mentionsFaq sg = true).
  { subst sg. cbn [extractSignals mentionsFaq].
    rewrite Htext. apply contains_lower_infix. exact Hw. }
  split; [exact Hsig|].
  destruct (scores_of_scoring sg) as (_ & Hs & _). rewrite Hs.
  clearbody sg. unfold Spec.subscore, Spec.subscore_in, Spec.rule_table.
  unfold Spec.applies.
  cbn [List.filter Spec.rule_category Spec.category_eqb Spec.holds andb].
  rewrite Hsig.
  destruct (hasTabularOrDefinitionContent sg), (hasListContent sg);
    cbn; lia.
Qed.

Lemma faq_signal_any_occurrence_witness :
  PyStr.lower "FaQ" = "faq" /\
  mentionsFaq
    (extractSignals "https://example.com"
       [Soup.Tag "h2" ∅ [Soup.NavigableString "Our FaQs"]]) = true.
Proof.
  split.
  - reflexivity.
  - apply (faq_signal_any_occurrence "https://example.com"
             [Soup.Tag "h2" ∅ [Soup.NavigableString "Our FaQs"]]
             "Our " "FaQ" "s").
    + reflexivity.
    + reflexivity.
Defined.

(** ** What the URL is used for *)

(** X12. The analysis uses the URL only through its network location: two
    URLs with the same network location give the same scores, issues,
    final score, grade and priority for a page. *)
Theorem analysis_depends_on_netloc
    (it : list (Z * string)) (url1 url2 : string) (doc : Soup.soup) :
  Url.netloc (normalize_url url1) = Url.netloc (normalize_url url2) ->
  analyze it url1 doc = analyze it url2 doc.
Proof.
  intros H. unfold analyze, extractSignals, external. rewrite H.
  reflexivity.
Qed.

Lemma analysis_depends_on_netloc_witness :
  Url.netloc (normalize_url "example.com") =
  Url.netloc (normalize_url "https://example.com/pricing?plan=1") /\
  analyze grades_as_written "example.com" nine_relative_links =
  analyze grades_as_written "https://example.com/pricing?plan=1"
    nine_relative_links.
Proof.
  split.
  - reflexivity.
  - apply (analysis_depends_on_netloc grades_as_written "example.com"
             "https://example.com/pricing?plan=1" nine_relative_links).
    reflexivity.
Defined.

(** ** Pages with few paragraphs or few links *)

Lemma filter_len_le {A} (f : A -> bool) (l : list A) :
  PyStr.len (List.filter f l) <= PyStr.len l.
Proof.
  unfold PyStr.len. apply inj_le.
  induction l as [|x l IH]; cbn [List.filter]; [reflexivity|].
  destruct (f x); cbn [length]; lia.
Qed.

(** X13. A page with fewer than three paragraph tags, however long they
    are, passes the paragraph test and is awarded its 10 technical
    points. *)
Theorem few_paragraphs_pass (url : string) (doc : Soup.soup) :
  PyStr.len (Soup.find_all doc (Soup.named "p") Soup.any_attrs) < 3 ->
  let sg := extractSignals url doc in
  hasReasonableParagraphLength sg = true /\
  10 <= tech_score (scoring sg initial).
Proof.
  intros Hp sg.
  assert (Hsig : hasReasonableParagraphLength sg = true).
  { subst sg. cbn [extractSignals hasReasonableParagraphLength].
    apply Z.ltb_lt.
    eapply Z.le_lt_trans; [apply filter_len_le | exact Hp]. }
  split; [exact Hsig|].
  destruct (scores_of_scoring sg) as (Ht & _). rewrite Ht.
  clearbody sg. unfold Spec.subscore, Spec.subscore_in, Spec.rule_table.
  unfold Spec.applies.
  cbn [List.filter Spec.rule_category Spec.category_eqb Spec.holds andb].
  rewrite Hsig.
  destruct (hasStructuredData sg), (hasSemanticSectioning sg),
    (hasGoodHeadingStructure sg), (hasRecentDateMention sg);
    cbn; lia.
Qed.

Lemma few_paragraphs_pass_witness :
  PyStr.len
    (Soup.find_all
       [Soup.Tag "p" ∅ [Soup.NavigableString "One paragraph."];
        Soup.Tag "p" ∅ [Soup.NavigableString "Another one."]]
       (Soup.named "p") Soup.any_attrs) < 3 /\
  hasReasonableParagraphLength
    (extractSignals "https://example.com"
       [Soup.Tag "p" ∅ [Soup.NavigableString "One paragraph."];
        Soup.Tag "p" ∅ [Soup.NavigableString "Another one."]]) = true.
Proof.
  split.
  - reflexivity.
  - apply (few_paragraphs_pass "https://example.com"
             [Soup.Tag "p" ∅ [Soup.NavigableString "One paragraph."];
              Soup.Tag "p" ∅ [Soup.NavigableString "Another one."]]).
    reflexivity.
Defined.



(** ** Which tags count as headings *)

Lemma heading_not_inside (t : list ascii) :
  Re.matches_at false heading_pattern (false, t) = false.
Proof. reflexivity. Qed.

Lemma heading_search_from (l : list ascii) :
  Re.search_from false heading_pattern l = false.
Proof.
  induction l as [|c l IH]; [reflexivity|].
  cbn [Re.search_from]. rewrite heading_not_inside, IH. reflexivity.
Qed.

(** X15. A tag is counted as a heading exactly when its name is the letter
    [h] in lower case followed by one digit from 1 to 6 and nothing else,
    but for a final newline, which the dollar sign of the pattern lets
    through. *)
Theorem heading_names (nm : string) :
  Soup.named_like heading_pattern nm = true <->
  exists c : ascii,
    Re.in_range "1" "6" c = true /\
    (nm = String "h" (String c EmptyString) \/
     nm = String "h" (String c (String "010" EmptyString))).
Proof.
  unfold Soup.named_like, Re.search.
  rewrite heading_search_from, orb_false_r.
  unfold Re.matches_at, heading_pattern, PyStr.chars.
  destruct nm as [|c1 [|c2 [|c3 [|c4 s]]]];
    cbn [list_ascii_of_string Re.ends flat_map Re.step snd fst app
         Re.same_char].
  - split; [discriminate|]. intros (c & _ & [E|E]); discriminate E.
  - destruct (Ascii.eqb "h" c1); cbn [flat_map app Re.ends Re.step snd];
      (split; [discriminate|]); intros (c & _ & [E|E]); discriminate E.
  - destruct (Ascii.eqb_spec "h" c1) as [<-|N];
      cbn [flat_map app Re.ends Re.step snd].
    + destruct (Re.in_range "1" "6" c2) eqn:R;
        cbn [flat_map app Re.ends Re.step snd].
      * split; [|reflexivity]. intros _. exists c2. split; [exact R|].
        left. reflexivity.
      * split; [discriminate|]. intros (c & Hc & [E|E]);
          [injection E as <- | discriminate E]. congruence.
    + split; [discriminate|]. intros (c & _ & [E|E]);
        [injection E as E1 _ | discriminate E]. congruence.
  - destruct (Ascii.eqb_spec "h" c1) as [<-|N];
      cbn [flat_map app Re.ends Re.step snd].
    + destruct (Re.in_range "1" "6" c2) eqn:R;
        cbn [flat_map app Re.ends Re.step snd].
      * destruct (Ascii.eqb_spec c3 "010") as [->|N3].
        -- split; [|reflexivity]. intros _. exists c2. split; [exact R|].
           right. reflexivity.
        -- split; [discriminate|]. intros (c & _ & [E|E]);
             [discriminate E | injection E as _ E3]. congruence.
      * split; [discriminate|]. intros (c & Hc & [E|E]);
          [discriminate E | injection E as <- _]. congruence.
    + split; [discriminate|]. intros (c & _ & [E|E]);
        [discriminate E | injection E as E1 _ _]. congruence.
  - split.
    + destruct (Ascii.eqb "h" c1); cbn [flat_map app Re.ends Re.step snd];
        [|discriminate].
      destruct (Re.in_range "1" "6" c2);
        cbn [flat_map app Re.ends Re.step snd]; discriminate.
    + intros (c & _ & [E|E]); discriminate E.
Qed.

(** ** The trust badge *)








